(** * tonkonbot: a logging IRC bot

    Shallow embedding of [tonkonbot.py]: the [MessageLogger] class, the
    [LogBot] protocol callbacks and the [LogBotFactory] supervisor
    callbacks.  Python objects are records, attribute mutation is explicit
    state passing, and an exception leaves the state as it was when the
    exception was raised.  Calls that leave the program (Twisted, the
    [tonkon] command handler, [print]) are recorded, in order, as
    [effect]s in the world's trace. *)

From Stdlib Require Import Ascii DecimalString.
From stdpp Require Import gmap strings list fin_maps.

Open Scope string_scope.
Open Scope list_scope.

(** ** Python strings *)

Module PyStr.

(** [s.split(sep, maxsplit)] for a one-character separator.  [None] is
    Python's default (no limit); [Some k] allows at most [k] cuts. *)
Definition may_cut (maxsplit : option nat) : bool :=
  match maxsplit with
  | None => true
  | Some 0 => false
  | Some (S _) => true
  end.

Definition after_cut (maxsplit : option nat) : option nat :=
  match maxsplit with
  | None => None
  | Some k => Some (Nat.pred k)
  end.

Fixpoint split (sep : ascii) (maxsplit : option nat) (s : string)
  : list string :=
  match s with
  | EmptyString => [ "" ]
  | String c rest =>
      if may_cut maxsplit && Ascii.eqb c sep
      then "" :: split sep (after_cut maxsplit) rest
      else match split sep maxsplit rest with
           | piece :: pieces => String c piece :: pieces
           | [] => [ String c "" ]
           end
  end.

(** The prefix of [s] that stops before the first [sep]. *)
Fixpoint before_first (sep : ascii) (s : string) : string :=
  match s with
  | EmptyString => ""
  | String c rest =>
      if Ascii.eqb c sep then "" else String c (before_first sep rest)
  end.

(** What is cut off: empty, or the first [sep] and all that follows. *)
Fixpoint from_first (sep : ascii) (s : string) : string :=
  match s with
  | EmptyString => ""
  | String c rest =>
      if Ascii.eqb c sep then s else from_first sep rest
  end.

(** [sep in s] *)
Fixpoint contains (sep : ascii) (s : string) : bool :=
  match s with
  | EmptyString => false
  | String c rest => Ascii.eqb c sep || contains sep rest
  end.

(** [s.count(sep)] *)
Fixpoint count (sep : ascii) (s : string) : nat :=
  match s with
  | EmptyString => 0
  | String c rest =>
      (if Ascii.eqb c sep then 1 else 0) + count sep rest
  end.

(** [str(n)] for a non-negative integer. *)
Definition of_nat (n : nat) : string :=
  NilEmpty.string_of_uint (Nat.to_uint n).

(** ["%02d" % n] *)
Definition zero2 (n : nat) : string :=
  if (n <? 10)%nat then "0" +:+ of_nat n else of_nat n.

(** ["%2d" % n] *)
Definition space2 (n : nat) : string :=
  if (n <? 10)%nat then " " +:+ of_nat n else of_nat n.

End PyStr.

(** ** The [time] module *)

Module PyTime.

(** [time.struct_time], as returned by [time.localtime(time.time())]. *)
Record struct_time := {
  tm_year : nat;
  tm_mon  : nat;   (* 1..12 *)
  tm_mday : nat;   (* 1..31 *)
  tm_hour : nat;   (* 0..23 *)
  tm_min  : nat;   (* 0..59 *)
  tm_sec  : nat;   (* 0..61 *)
  tm_wday : nat    (* 0..6, Monday is 0 *)
}.

Definition well_formed (t : struct_time) : Prop :=
  1 <= tm_mon t <= 12 /\ 1 <= tm_mday t <= 31 /\ tm_hour t < 24 /\
  tm_min t < 60 /\ tm_sec t < 62 /\ tm_wday t < 7.

Definition clock_text (t : struct_time) : string :=
  PyStr.zero2 (tm_hour t) +:+ ":" +:+ PyStr.zero2 (tm_min t) +:+ ":" +:+
  PyStr.zero2 (tm_sec t).

(** [time.strftime("[%H:%M:%S]", t)] *)
Definition strftime_HMS (t : struct_time) : string :=
  "[" +:+ clock_text t +:+ "]".

Definition day_name (wday : nat) : string :=
  nth wday [ "Mon"; "Tue"; "Wed"; "Thu"; "Fri"; "Sat"; "Sun" ] "???".

Definition month_name (mon : nat) : string :=
  nth (Nat.pred mon)
      [ "Jan"; "Feb"; "Mar"; "Apr"; "May"; "Jun";
        "Jul"; "Aug"; "Sep"; "Oct"; "Nov"; "Dec" ] "???".

(** [time.asctime(t)], e.g. [Sun Jun 20 23:21:05 1993]. *)
Definition asctime (t : struct_time) : string :=
  day_name (tm_wday t) +:+ " " +:+ month_name (tm_mon t) +:+ " " +:+
  PyStr.space2 (tm_mday t) +:+ " " +:+ clock_text t +:+ " " +:+
  PyStr.of_nat (tm_year t).

End PyTime.

(** ** Exceptions, effects and the world *)

Inductive exn :=
| AttributeError (attr : string)
| ValueError (what : string)
| IOError (path : string)
| IndexError
| RuntimeError (what : string)
| ReactorNotRunning.

Inductive result (A : Type) :=
| Ok (a : A)
| Raise (e : exn).
Arguments Ok {A} a.
Arguments Raise {A} e.

(** A computation over a mutable state [S]: the state comes back also when
    an exception is raised, with every mutation made before the raise. *)
Definition M (S A : Type) : Type := S -> result A * S.

Definition ret {S A : Type} (a : A) : M S A := fun s => (Ok a, s).

Definition raise {S A : Type} (e : exn) : M S A := fun s => (Raise e, s).

Definition bind {S A B : Type} (m : M S A) (k : A -> M S B) : M S B :=
  fun s =>
    match m s with
    | (Ok a, s') => k a s'
    | (Raise e, s') => (Raise e, s')
    end.

Notation "'let*' x ':=' m 'in' k" := (bind m (fun x => k))
  (at level 10, x name, m at level 100, k at level 200).

Definition get {S : Type} : M S S := fun s => (Ok s, s).
Definition modify {S : Type} (f : S -> S) : M S unit := fun s => (Ok tt, f s).

(** Calls that leave the program, with their arguments.  A protocol
    object is named by the number [buildProtocol] gave it, a file object
    by its index in the table of file objects.  [tonkon.command_handler]
    and the methods of [irc.IRCClient] are code of other modules: the
    trace records that they were called and with what, not what they do
    in turn. *)
Inductive effect :=
| file_open (fd : nat) (path mode : string)
| file_write (fd : nat) (data : string)
| file_flush (fd : nat)
| file_close (fd : nat)
| IRCClient_connectionMade (conn : nat)
| IRCClient_connectionLost (conn : nat) (reason : string)
| IRCClient_join (conn : nat) (channel : string) (key : option string)
| IRCClient_msg (conn : nat) (user message : string)
| tonkon_command_handler (conn : nat) (user channel msg : string)
| connector_connect (host : string) (port : N)
| reactor_stop
| print (text : string).

(** A Python file object opened for appending: what was written and not
    yet flushed, and whether [close] was called. *)
Record File := {
  f_path : string;
  f_buffer : string;
  f_closed : bool
}.

Inductive connector_state := disconnected | connecting | connected.

(** Twisted's connector: the address given to [reactor.connectSSL]. *)
Record Connector := {
  c_host : string;
  c_port : N;
  c_state : connector_state
}.

Record World := {
  disk : gmap string string;        (* path -> content on disk *)
  can_open : string -> bool;        (* paths [open(path, "a")] accepts *)
  files : list File;                (* file objects, by descriptor *)
  clock : nat -> PyTime.struct_time;  (* local time at the next reads *)
  trace : list effect;              (* oldest first *)
  reactor_running : bool;
  connector : Connector;
  protocols_built : nat
}.

Definition set_disk (d : gmap string string) (w : World) : World :=
  {| disk := d; can_open := can_open w; files := files w; clock := clock w;
     trace := trace w; reactor_running := reactor_running w;
     connector := connector w; protocols_built := protocols_built w |}.

Definition set_files (fs : list File) (w : World) : World :=
  {| disk := disk w; can_open := can_open w; files := fs; clock := clock w;
     trace := trace w; reactor_running := reactor_running w;
     connector := connector w; protocols_built := protocols_built w |}.

Definition set_clock (c : nat -> PyTime.struct_time) (w : World) : World :=
  {| disk := disk w; can_open := can_open w; files := files w; clock := c;
     trace := trace w; reactor_running := reactor_running w;
     connector := connector w; protocols_built := protocols_built w |}.

Definition set_trace (t : list effect) (w : World) : World :=
  {| disk := disk w; can_open := can_open w; files := files w;
     clock := clock w; trace := t; reactor_running := reactor_running w;
     connector := connector w; protocols_built := protocols_built w |}.

Definition set_reactor_running (b : bool) (w : World) : World :=
  {| disk := disk w; can_open := can_open w; files := files w;
     clock := clock w; trace := trace w; reactor_running := b;
     connector := connector w; protocols_built := protocols_built w |}.

Definition set_connector (c : Connector) (w : World) : World :=
  {| disk := disk w; can_open := can_open w; files := files w;
     clock := clock w; trace := trace w;
     reactor_running := reactor_running w;
     connector := c; protocols_built := protocols_built w |}.

Definition set_protocols_built (n : nat) (w : World) : World :=
  {| disk := disk w; can_open := can_open w; files := files w;
     clock := clock w; trace := trace w;
     reactor_running := reactor_running w;
     connector := connector w; protocols_built := n |}.

(** Record one call, after all earlier ones. *)
Definition emit (e : effect) : M World unit :=
  modify (fun w => set_trace (trace w ++ [ e ]) w).

(** [time.localtime(time.time())]: the clock is read and moves on. *)
Definition localtime_now : M World PyTime.struct_time :=
  fun w => (Ok (clock w 0), set_clock (fun n => clock w (S n)) w).

(** Content of [path] on disk; a missing file reads as empty. *)
Definition content (w : World) (path : string) : string :=
  default "" (disk w !! path).

(** ** Python file objects *)

Module PyFile.

(** [open(path, "a")]: the file is created when missing and is never
    truncated; the new file object gets the next descriptor. *)
Definition open_append (path : string) : M World nat :=
  fun w =>
    if can_open w path then
      let fd := length (files w) in
      let w1 := set_disk (<[path := content w path]> (disk w)) w in
      let w2 :=
        set_files (files w1 ++
                   [ {| f_path := path; f_buffer := ""; f_closed := false |} ])
                  w1 in
      (Ok fd, set_trace (trace w2 ++ [ file_open fd path "a" ]) w2)
    else (Raise (IOError path), w).

(** The file object behind a descriptor.  A logger only ever holds a
    descriptor that [open_append] returned, so the error case is there
    for totality. *)
Definition file_object (fd : nat) : M World File :=
  fun w =>
    match files w !! fd with
    | Some f => (Ok f, w)
    | None => (Raise (ValueError "bad file object"), w)
    end.

(** [f.write(data)] *)
Definition write (fd : nat) (data : string) : M World unit :=
  let* f := file_object fd in
  if f_closed f then raise (ValueError "I/O operation on closed file")
  else
    let* _ := modify (fun w =>
      set_files (<[fd := {| f_path := f_path f;
                            f_buffer := f_buffer f +:+ data;
                            f_closed := false |}]> (files w)) w) in
    emit (file_write fd data).

(** Move the buffered text to the end of the file on disk. *)
Definition drain (fd : nat) (f : File) (w : World) : World :=
  set_files (<[fd := {| f_path := f_path f; f_buffer := "";
                        f_closed := f_closed f |}]> (files w))
    (set_disk (<[f_path f := content w (f_path f) +:+ f_buffer f]> (disk w))
              w).

(** [f.flush()] *)
Definition flush (fd : nat) : M World unit :=
  let* f := file_object fd in
  if f_closed f then raise (ValueError "I/O operation on closed file")
  else
    let* _ := modify (drain fd f) in
    emit (file_flush fd).

(** [f.close()]: flushes; closing twice is allowed. *)
Definition close (fd : nat) : M World unit :=
  let* f := file_object fd in
  if f_closed f then ret tt
  else
    let* _ := modify (drain fd f) in
    let* _ := modify (fun w =>
      set_files (<[fd := {| f_path := f_path f; f_buffer := "";
                            f_closed := true |}]> (files w)) w) in
    emit (file_close fd).

End PyFile.

(** ** class MessageLogger *)

Module MessageLogger.

Record t := { file : nat }.

(** [__init__(self, file)] *)
Definition init (file : nat) : t := {| file := file |}.

(** [log(self, message)] (lines 50-54): the timestamp, the write of
    ['%s %s\n' % (timestamp, message)], the flush. *)
Definition log (self : t) (message : string) : M World unit :=
  let* now := localtime_now in
  let timestamp := PyTime.strftime_HMS now in
  let* _ := PyFile.write (file self)
              (timestamp +:+ " " +:+ message +:+ String "010" "") in
  PyFile.flush (file self).

(** [close(self)] (lines 56-57) *)
Definition close (self : t) : M World unit :=
  PyFile.close (file self).

End MessageLogger.

(** ** class LogBotFactory: the fields *)

Record Factory := {
  channel : string;
  key : option string;
  db : nat;
  filename : string
}.

(** ** class LogBot *)

Module LogBot.

(** [logger] is absent until [connectionMade] sets it. *)
Record t := {
  conn : nat;
  nickname : string;
  logger : option MessageLogger.t;
  factory : Factory
}.

Record State := { self : t; world : World }.

Definition set_logger (l : MessageLogger.t) (b : t) : t :=
  {| conn := conn b; nickname := nickname b; logger := Some l;
     factory := factory b |}.

(** Run a computation on the world, leaving the object alone. *)
Definition lift {A : Type} (m : M World A) : M State A :=
  fun st =>
    let (r, w) := m (world st) in (r, {| self := self st; world := w |}).

Definition this : M State t := fun st => (Ok (self st), st).

(** [self.logger] *)
Definition get_logger : M State MessageLogger.t :=
  let* b := this in
  match logger b with
  | Some l => ret l
  | None => raise (AttributeError "logger")
  end.

Definition assign_logger (l : MessageLogger.t) : M State unit :=
  modify (fun st => {| self := set_logger l (self st); world := world st |}).

(** [xs[0]] *)
Definition item0 {S : Type} (xs : list string) : M S string :=
  match xs !! 0 with
  | Some x => ret x
  | None => raise IndexError
  end.

(** The text of line 95. *)
Definition refusal : string :=
  "It isn't nice to whisper!  Play nice with the group.".

(** [connectionMade(self)] (lines 65-69).  [self.logger.log] is looked
    up before its argument reads the clock, and [log] reads it again. *)
Definition connectionMade : M State unit :=
  let* b := this in
  let* _ := lift (emit (IRCClient_connectionMade (conn b))) in
  let* fd := lift (PyFile.open_append (filename (factory b))) in
  let* _ := assign_logger (MessageLogger.init fd) in
  let* l := get_logger in
  let* now := lift localtime_now in
  lift (MessageLogger.log l
          ("[connected at " +:+ PyTime.asctime now +:+ "]")).

(** [connectionLost(self, reason)] (lines 71-75) *)
Definition connectionLost (reason : string) : M State unit :=
  let* b := this in
  let* _ := lift (emit (IRCClient_connectionLost (conn b) reason)) in
  let* l := get_logger in
  let* now := lift localtime_now in
  let* _ := lift (MessageLogger.log l
                    ("[disconnected at " +:+ PyTime.asctime now +:+ "]")) in
  let* l := get_logger in
  lift (MessageLogger.close l).

(** [signedOn(self)] (lines 80-82) *)
Definition signedOn : M State unit :=
  let* b := this in
  lift (emit (IRCClient_join (conn b) (channel (factory b))
                             (key (factory b)))).

(** [joined(self, channel)] (lines 84-86) *)
Definition joined (channel : string) : M State unit :=
  let* l := get_logger in
  lift (MessageLogger.log l ("[I have joined " +:+ channel +:+ "]")).

(** [privmsg(self, user, channel, msg)] (lines 88-100) *)
Definition privmsg (user channel msg : string) : M State unit :=
  let* user := item0 (PyStr.split "!" (Some 1) user) in
  let* l := get_logger in
  let* _ := lift (MessageLogger.log l
                    ("<" +:+ user +:+ "> " +:+ msg)) in
  let* b := this in
  if String.eqb channel (nickname b) then
    let msg := refusal in
    lift (emit (IRCClient_msg (conn b) user msg))
  else
    lift (emit (tonkon_command_handler (conn b) user channel msg)).

(** [action(self, user, channel, msg)] (lines 102-105) *)
Definition action (user channel msg : string) : M State unit :=
  let* user := item0 (PyStr.split "!" (Some 1) user) in
  let* l := get_logger in
  lift (MessageLogger.log l ("* " +:+ user +:+ " " +:+ msg)).

(** [irc_NICK(self, prefix, params)] (lines 109-113) *)
Definition irc_NICK (prefix : string) (params : list string)
  : M State unit :=
  let* old_nick := item0 (PyStr.split "!" None prefix) in
  let* new_nick := item0 params in
  let* l := get_logger in
  lift (MessageLogger.log l
          (old_nick +:+ " is now known as " +:+ new_nick)).

(** [alterCollidedNick(self, nickname)] (lines 118-123) *)
Definition alterCollidedNick (nickname : string) : string :=
  nickname +:+ "^".

End LogBot.

(** ** Twisted's connector and reactor, as far as the factory uses them *)

Module Twisted.

(** [connector.connect()]: only a disconnected connector may connect;
    it dials the address it was created with. *)
Definition connect : M World unit :=
  let* w := get in
  match c_state (connector w) with
  | disconnected =>
      let* _ := modify (fun w =>
        set_connector {| c_host := c_host (connector w);
                         c_port := c_port (connector w);
                         c_state := connecting |} w) in
      emit (connector_connect (c_host (connector w)) (c_port (connector w)))
  | _ => raise (RuntimeError "can't connect in this state")
  end.

(** [reactor.stop()] *)
Definition stop : M World unit :=
  let* w := get in
  if reactor_running w then
    let* _ := modify (set_reactor_running false) in
    emit reactor_stop
  else raise ReactorNotRunning.

(** The transport's state as the connector tracks it. *)
Definition become (s : connector_state) : M World unit :=
  modify (fun w =>
    set_connector {| c_host := c_host (connector w);
                     c_port := c_port (connector w);
                     c_state := s |} w).

End Twisted.

(** ** class LogBotFactory *)

Module LogBotFactory.

(** [__init__(self, channel, key, db)] (lines 133-137); [key] is [None]
    when the configuration has none, [db] stands for the database
    connection, which this module only passes on. *)
Definition init (channel : string) (key : option string) (db : nat)
  : Factory :=
  {| channel := channel; key := key; db := db;
     filename := "logs/" +:+ channel |}.

(** [buildProtocol(self, addr)] (lines 139-142): a new [LogBot] with the
    class attribute [nickname] and no [logger] yet. *)
Definition buildProtocol (self : Factory) : M World LogBot.t :=
  fun w =>
    (Ok {| LogBot.conn := protocols_built w;
           LogBot.nickname := "tonkon";
           LogBot.logger := None;
           LogBot.factory := self |},
     set_protocols_built (S (protocols_built w)) w).

(** [clientConnectionLost(self, connector, reason)] (lines 144-146) *)
Definition clientConnectionLost (self : Factory) (reason : string)
  : M World unit :=
  Twisted.connect.

(** [clientConnectionFailed(self, connector, reason)] (lines 148-150);
    [reason] is the text [print] shows for it. *)
Definition clientConnectionFailed (self : Factory) (reason : string)
  : M World unit :=
  let* _ := emit (print ("connection failed: " +:+ reason +:+
                         String "010" "")) in
  Twisted.stop.

End LogBotFactory.

(** ** What Twisted delivers *)

(** Transport outcomes, as the connector reports them to the factory: it
    marks itself disconnected and then calls the factory. *)
Inductive transport_event :=
| established
| lost (reason : string)
| failed (reason : string).

Definition supervise (f : Factory) (ev : transport_event) : M World unit :=
  match ev with
  | established => Twisted.become connected
  | lost reason =>
      let* _ := Twisted.become disconnected in
      LogBotFactory.clientConnectionLost f reason
  | failed reason =>
      let* _ := Twisted.become disconnected in
      LogBotFactory.clientConnectionFailed f reason
  end.

Fixpoint supervise_all (f : Factory) (evs : list transport_event)
  : M World unit :=
  match evs with
  | [] => ret tt
  | ev :: rest => let* _ := supervise f ev in supervise_all f rest
  end.

(** [n] times: the connection comes up and is lost again. *)
Fixpoint drops (n : nat) (reason : string) : list transport_event :=
  match n with
  | 0 => []
  | S k => established :: lost reason :: drops k reason
  end.

(** Calls on the protocol objects of one factory.  [new_session] is the
    factory building the protocol of the next connection. *)
Inductive callback :=
| new_session
| on_connectionMade
| on_connectionLost (reason : string)
| on_signedOn
| on_joined (channel : string)
| on_privmsg (user channel msg : string)
| on_action (user channel msg : string)
| on_irc_NICK (prefix : string) (params : list string).

Definition deliver (cb : callback) : M LogBot.State unit :=
  match cb with
  | new_session =>
      let* b := LogBot.this in
      let* p := LogBot.lift (LogBotFactory.buildProtocol (LogBot.factory b)) in
      modify (fun st => {| LogBot.self := p; LogBot.world := LogBot.world st |})
  | on_connectionMade => LogBot.connectionMade
  | on_connectionLost reason => LogBot.connectionLost reason
  | on_signedOn => LogBot.signedOn
  | on_joined c => LogBot.joined c
  | on_privmsg u c m => LogBot.privmsg u c m
  | on_action u c m => LogBot.action u c m
  | on_irc_NICK p ps => LogBot.irc_NICK p ps
  end.

(** The reactor reports an exception of a callback and goes on with the
    state the callback left. *)
Fixpoint deliver_all (cbs : list callback) (st : LogBot.State)
  : LogBot.State :=
  match cbs with
  | [] => st
  | cb :: rest => deliver_all rest (snd (deliver cb st))
  end.

(** The nickname tried after [k] collisions in a row: the protocol layer
    applies the rule to the nickname it tried last. *)
Fixpoint candidate (k : nat) (nickname : string) : string :=
  match k with
  | 0 => nickname
  | S j => LogBot.alterCollidedNick (candidate j nickname)
  end.

(** ** A concrete world, for examples *)

Definition noon : PyTime.struct_time :=
  {| PyTime.tm_year := 2014; PyTime.tm_mon := 3; PyTime.tm_mday := 9;
     PyTime.tm_hour := 12; PyTime.tm_min := 0; PyTime.tm_sec := 7;
     PyTime.tm_wday := 6 |}.

Definition world0 : World :=
  {| disk := {[ "logs/test" := "old" +:+ String "010" "" ]};
     can_open := fun p => String.eqb p "logs/test";
     files := [];
     clock := fun _ => noon;
     trace := [];
     reactor_running := true;
     connector := {| c_host := "irc.example.net"; c_port := 6697%N;
                     c_state := connecting |};
     protocols_built := 0 |}.

Definition factory0 : Factory := LogBotFactory.init "test" (Some "secret") 0.

Definition fresh0 : LogBot.State :=
  let (r, w) := LogBotFactory.buildProtocol factory0 world0 in
  match r with
  | Ok p => {| LogBot.self := p; LogBot.world := w |}
  | Raise _ =>
      {| LogBot.self := {| LogBot.conn := 0; LogBot.nickname := "";
                           LogBot.logger := None;
                           LogBot.factory := factory0 |};
         LogBot.world := w |}
  end.

(** After [connectionMade]: the logger is open. *)
Definition live0 : LogBot.State := snd (LogBot.connectionMade fresh0).

(** ** Notions used in the statements *)

Definition newline : string := String "010" "".

(** A message of two lines, [a] and [b]. *)
Definition two_line_message : string := "a" +:+ newline +:+ "b".

(** The text [log] writes for [message] when the clock shows [now]. *)
Definition log_line (now : PyTime.struct_time) (message : string) : string :=
  PyTime.strftime_HMS now +:+ " " +:+ message +:+ newline.

(** The file object of logger [l] is open on [path] with nothing
    buffered: the state [connectionMade] sets up and every [log] keeps. *)
Definition ready (w : World) (l : MessageLogger.t) (path : string) : Prop :=
  files w !! MessageLogger.file l =
  Some {| f_path := path; f_buffer := ""; f_closed := false |}.

(** The effects a computation added to the trace. *)
Definition new_effects (before after : World) : list effect :=
  drop (length (trace before)) (trace after).

(** The world after a successful [log] on a ready logger. *)
Definition logged (fd : nat) (path line : string) (w : World) : World :=
  {| disk := <[path := content w path +:+ line]> (disk w);
     can_open := can_open w;
     files := files w;
     clock := fun n => clock w (S n);
     trace := trace w ++ [ file_write fd line; file_flush fd ];
     reactor_running := reactor_running w;
     connector := connector w;
     protocols_built := protocols_built w |}.

(** Every file of [w'] starts with what it held in [w]. *)
Definition grows (w w' : World) : Prop :=
  ∀ p, ∃ more, content w' p = content w p +:+ more.

(** A computation on the world that never shortens a file. *)
Definition keeps {A : Type} (m : M World A) : Prop :=
  ∀ w, grows w (snd (m w)).

(** The same for a computation of a protocol object. *)
Definition steady {A : Type} (m : M LogBot.State A) : Prop :=
  ∀ st, grows (LogBot.world st) (LogBot.world (snd (m st))).

(** [m] succeeds on [st]; it leaves the object as it was, appends the log
    line of [text] to the file at [path] and to no other file, with one
    write and one flush, then performs [next], and the logger stays
    ready. *)
Definition logs_line (m : M LogBot.State unit) (st : LogBot.State)
    (l : MessageLogger.t) (path text : string) (next : list effect) : Prop :=
  let w := LogBot.world st in
  let line := log_line (clock w 0) text in
  ∃ w',
    m st = (Ok tt, {| LogBot.self := LogBot.self st; LogBot.world := w' |}) ∧
    content w' path = content w path +:+ line ∧
    (∀ q, q ≠ path → content w' q = content w q) ∧
    new_effects w w' =
      file_write (MessageLogger.file l) line ::
      file_flush (MessageLogger.file l) :: next ∧
    ready w' l path.

(** The call that dials the connector's address. *)
Definition dial (w : World) : effect :=
  connector_connect (c_host (connector w)) (c_port (connector w)).

(** The world after one reconnect. *)
Definition redialled (w : World) : World :=
  set_trace (trace w ++ [ dial w ])
    (set_connector {| c_host := c_host (connector w);
                      c_port := c_port (connector w);
                      c_state := connecting |} w).

(** A world in which [logs/test] cannot be opened. *)
Definition world_without_logs : World :=
  {| disk := ∅;
     can_open := fun _ => false;
     files := [];
     clock := fun _ => noon;
     trace := [];
     reactor_running := true;
     connector := {| c_host := "irc.example.net"; c_port := 6697%N;
                     c_state := connected |};
     protocols_built := 0 |}.

(** A session whose [connectionMade] failed in that world. *)
Definition stuck0 : LogBot.State :=
  deliver_all [ new_session; on_connectionMade ]
    {| LogBot.self := LogBot.self fresh0; LogBot.world := world_without_logs |}.

(** ** The session as a whole *)

(** The results of the callbacks of [deliver_all], in order. *)
Fixpoint outcomes (cbs : list callback) (st : LogBot.State)
  : list (result unit) :=
  match cbs with
  | [] => []
  | cb :: rest => fst (deliver cb st) :: outcomes rest (snd (deliver cb st))
  end.

(** The callbacks Twisted delivers between [connectionMade] and
    [connectionLost]; a NICK message carries the new nickname. *)
Definition in_session (cb : callback) : bool :=
  match cb with
  | on_signedOn | on_joined _ | on_privmsg _ _ _ | on_action _ _ _
  | on_irc_NICK _ (_ :: _) => true
  | _ => false
  end.

(** Those of them that call nothing but the logger. *)
Definition logs_only (cb : callback) : bool :=
  match cb with
  | on_joined _ | on_action _ _ _ | on_irc_NICK _ (_ :: _) => true
  | _ => false
  end.

(** What such a callback hands to [log], if anything. *)
Definition logged_text (cb : callback) : option string :=
  match cb with
  | on_joined c => Some ("[I have joined " +:+ c +:+ "]")
  | on_privmsg u c m => Some ("<" +:+ PyStr.before_first "!" u +:+ "> " +:+ m)
  | on_action u c m => Some ("* " +:+ PyStr.before_first "!" u +:+ " " +:+ m)
  | on_irc_NICK p (n :: _) =>
      Some (PyStr.before_first "!" p +:+ " is now known as " +:+ n)
  | _ => None
  end.

(** The calls it makes besides logging. *)
Definition follow_up (me : LogBot.t) (cb : callback) : list effect :=
  match cb with
  | on_signedOn =>
      [ IRCClient_join (LogBot.conn me) (channel (LogBot.factory me))
                       (key (LogBot.factory me)) ]
  | on_privmsg u c m =>
      [ if String.eqb c (LogBot.nickname me)
        then IRCClient_msg (LogBot.conn me) (PyStr.before_first "!" u)
                           LogBot.refusal
        else tonkon_command_handler (LogBot.conn me)
                                    (PyStr.before_first "!" u) c m ]
  | _ => []
  end.

(** The text a run of callbacks adds to the log file, and the calls it
    makes, when the clock shows [clock 0], [clock 1], ... at its reads. *)
Fixpoint transcript (cbs : list callback) (clock : nat -> PyTime.struct_time)
  : string :=
  match cbs with
  | [] => ""
  | cb :: rest =>
      match logged_text cb with
      | Some text =>
          log_line (clock 0) text +:+ transcript rest (fun n => clock (S n))
      | None => transcript rest clock
      end
  end.

Fixpoint session_effects (me : LogBot.t) (fd : nat) (cbs : list callback)
    (clock : nat -> PyTime.struct_time) : list effect :=
  match cbs with
  | [] => []
  | cb :: rest =>
      match logged_text cb with
      | Some text =>
          file_write fd (log_line (clock 0) text) :: file_flush fd ::
          follow_up me cb ++
          session_effects me fd rest (fun n => clock (S n))
      | None => follow_up me cb ++ session_effects me fd rest clock
      end
  end.

(** The logger of a session, if it has one, is a file object on the
    factory's log file with nothing buffered, open or closed. *)
Definition tidy (st : LogBot.State) : Prop :=
  match LogBot.logger (LogBot.self st) with
  | None => True
  | Some l =>
      ∃ closed,
        files (LogBot.world st) !! MessageLogger.file l =
        Some {| f_path := filename (LogBot.factory (LogBot.self st));
                f_buffer := ""; f_closed := closed |}
  end.

(** The logger's file object is closed. *)
Definition shut (w : World) (l : MessageLogger.t) : Prop :=
  ∃ f, files w !! MessageLogger.file l = Some f ∧ f_closed f = true.

(** The world after a clock read. *)
Definition ticked (w : World) : World :=
  set_clock (fun n => clock w (S n)) w.

Definition is_failure (ev : transport_event) : bool :=
  match ev with
  | failed _ => true
  | _ => false
  end.

Definition is_loss (ev : transport_event) : bool :=
  match ev with
  | lost _ => true
  | _ => false
  end.

(** What a closed file object answers to [write] and [flush]. *)
Definition closed_file_error : exn := ValueError "I/O operation on closed file".

(** The session [live0] after its connection was lost. *)
Definition over0 : LogBot.State :=
  snd (LogBot.connectionLost "connection reset" live0).

(** Callbacks of one session, between its two ends. *)
Definition chat0 : list callback :=
  [ on_signedOn; on_joined "test";
    on_privmsg "alice!al@example.org" "test" "hello";
    on_action "bob!b@example.org" "test" "waves";
    on_privmsg "bob!b@example.org" "tonkon" "psst";
    on_irc_NICK "bob!b@example.org" [ "bobby" ] ].

(** ** The database check *)

Module Sqlite.

(** The two statements the program executes. *)
Inductive statement :=
| select_all (name : string)
| create_table (name : string) (cols : list (string * string)).

(** An exception of the [sqlite3] module: [OperationalError], or another
    of its classes, by name. *)
Inductive error :=
| OperationalError (message : string)
| OtherError (kind message : string).

(** What a call on the connection or the cursor gives. *)
Inductive answer (A : Type) :=
| fine (a : A)
| fails (e : error).
Arguments fine {A} a.
Arguments fails {A} e.

(** The connection as [init_db_or_pass] uses it.  What the library and
    the database file do is not this program's to decide: each call is
    given by the answer it returns and the state it leaves, for any type
    [D] of states. *)
Record Connection (D : Type) := {
  cursor : D -> answer unit * D;
  execute : statement -> D -> answer (list (list string)) * D;
  commit : D -> answer unit * D
}.
Arguments cursor {D} _ _.
Arguments execute {D} _ _ _.
Arguments commit {D} _ _.

(** The calls made, in order; [printed] is the [print] of the cursor of
    the last [execute]. *)
Inductive call :=
| opened_cursor
| executed (s : statement)
| committed
| printed (found : list (list string)).

(** How [init_db_or_pass] ends. *)
Inductive finished :=
| returned
| raised (e : error).

End Sqlite.

(** The statements of lines 166 and 173, and of lines 169-170. *)
Definition select_braindumps : Sqlite.statement :=
  Sqlite.select_all "braindumps".

Definition create_braindumps : Sqlite.statement :=
  Sqlite.create_table "braindumps" [ ("date", "text"); ("topic", "text") ].

(** [init_db_or_pass(conn)] (lines 153-173).  The [try] covers the first
    [execute] only and catches [OperationalError] only; the result is how
    the call ends, the state of the database and the calls made. *)
Definition init_db_or_pass {D : Type} (sql : Sqlite.Connection D) (conn : D)
  : Sqlite.finished * D * list Sqlite.call :=
  match Sqlite.cursor sql conn with
  | (Sqlite.fails e, d) => (Sqlite.raised e, d, [ Sqlite.opened_cursor ])
  | (Sqlite.fine _, d) =>
    match Sqlite.execute sql select_braindumps d with
    | (Sqlite.fine _, d1) =>
        (Sqlite.returned, d1,
         [ Sqlite.opened_cursor; Sqlite.executed select_braindumps ])
    | (Sqlite.fails (Sqlite.OtherError kind message), d1) =>
        (Sqlite.raised (Sqlite.OtherError kind message), d1,
         [ Sqlite.opened_cursor; Sqlite.executed select_braindumps ])
    | (Sqlite.fails (Sqlite.OperationalError _), d1) =>
      match Sqlite.execute sql create_braindumps d1 with
      | (Sqlite.fails e, d2) =>
          (Sqlite.raised e, d2,
           [ Sqlite.opened_cursor; Sqlite.executed select_braindumps;
             Sqlite.executed create_braindumps ])
      | (Sqlite.fine _, d2) =>
        match Sqlite.commit sql d2 with
        | (Sqlite.fails e, d3) =>
            (Sqlite.raised e, d3,
             [ Sqlite.opened_cursor; Sqlite.executed select_braindumps;
               Sqlite.executed create_braindumps; Sqlite.committed ])
        | (Sqlite.fine _, d3) =>
          match Sqlite.execute sql select_braindumps d3 with
          | (Sqlite.fails e, d4) =>
              (Sqlite.raised e, d4,
               [ Sqlite.opened_cursor; Sqlite.executed select_braindumps;
                 Sqlite.executed create_braindumps; Sqlite.committed;
                 Sqlite.executed select_braindumps ])
          | (Sqlite.fine found, d4) =>
              (Sqlite.returned, d4,
               [ Sqlite.opened_cursor; Sqlite.executed select_braindumps;
                 Sqlite.executed create_braindumps; Sqlite.committed;
                 Sqlite.executed select_braindumps; Sqlite.printed found ])
          end
        end
      end
    end
  end.

(** A cursor over no rows. *)
Definition no_rows : list (list string) := [].

(** Three connections, for examples; the state is whether the table
    [braindumps] is there.  [plain_db] creates it on request. *)
Definition plain_db : Sqlite.Connection bool :=
  {| Sqlite.cursor := fun d : bool => (Sqlite.fine tt, d);
     Sqlite.execute := fun (s : Sqlite.statement) (d : bool) =>
       match s with
       | Sqlite.select_all _ =>
           if d then (Sqlite.fine no_rows, d)
           else (Sqlite.fails
                   (Sqlite.OperationalError "no such table: braindumps"), d)
       | Sqlite.create_table _ _ =>
           if d then (Sqlite.fails
                        (Sqlite.OperationalError
                           "table braindumps already exists"), d)
           else (Sqlite.fine no_rows, true)
       end;
     Sqlite.commit := fun d : bool => (Sqlite.fine tt, d) |}.


(** [closed_db] is a connection that was closed. *)
Definition closed_db : Sqlite.Connection bool :=
  {| Sqlite.cursor := fun d : bool =>
       (Sqlite.fails
          (Sqlite.OtherError "ProgrammingError"
             "Cannot operate on a closed database."), d);
     Sqlite.execute := fun (s : Sqlite.statement) (d : bool) =>
       (Sqlite.fails
          (Sqlite.OtherError "ProgrammingError"
             "Cannot operate on a closed database."), d);
     Sqlite.commit := fun d : bool =>
       (Sqlite.fails
          (Sqlite.OtherError "ProgrammingError"
             "Cannot operate on a closed database."), d) |}.

(** * Properties *)

Example split_user :
  PyStr.split "!"%char (Some 1) "nick!user@host!x" = [ "nick"; "user@host!x" ].
Proof. reflexivity. Qed.

Example split_all :
  PyStr.split "!"%char None "a!b!!c" = [ "a"; "b"; ""; "c" ].
Proof. reflexivity. Qed.

Example asctime_1993 :
  PyTime.asctime
    {| PyTime.tm_year := 1993; PyTime.tm_mon := 6; PyTime.tm_mday := 20;
       PyTime.tm_hour := 23; PyTime.tm_min := 21; PyTime.tm_sec := 5;
       PyTime.tm_wday := 6 |} = "Sun Jun 20 23:21:05 1993".
Proof. reflexivity. Qed.

(** ** Strings *)

Section StringFacts.

Lemma string_app_cons (x : ascii) (a b : string) :
  String x a +:+ b = String x (a +:+ b).
Proof. reflexivity. Qed.

Lemma string_app_assoc (a b c : string) : (a +:+ b) +:+ c = a +:+ (b +:+ c).
Proof.
  induction a as [|x a IH]; [reflexivity |].
  rewrite !string_app_cons. by rewrite IH.
Qed.

Lemma string_app_nil_r (a : string) : a +:+ "" = a.
Proof.
  induction a as [|x a IH]; [reflexivity |].
  rewrite string_app_cons. by rewrite IH.
Qed.

Lemma string_length_app (a b : string) :
  String.length (a +:+ b) = String.length a + String.length b.
Proof.
  induction a as [|x a IH]; [reflexivity |].
  rewrite string_app_cons. simpl. by rewrite IH.
Qed.

Variable sep : ascii.

Lemma split_nonempty (k : option nat) (s : string) : PyStr.split sep k s ≠ [].
Proof.
  revert k. induction s as [|c s IH]; intros k; simpl; [done |].
  destruct (PyStr.may_cut k && Ascii.eqb c sep); [done |].
  destruct (PyStr.split sep k s); done.
Qed.

(** The first piece is the text before the first separator, whenever at
    least one cut is allowed. *)
Lemma split_first_piece (k : option nat) (s : string) :
  PyStr.may_cut k = true →
  PyStr.split sep k s !! 0 = Some (PyStr.before_first sep s).
Proof.
  intros Hk. induction s as [|c s IH]; simpl; [done |].
  rewrite Hk. simpl. destruct (Ascii.eqb c sep); [done |].
  destruct (PyStr.split sep k s) as [|piece pieces]; [done |].
  simpl in *. congruence.
Qed.

Lemma before_first_no_sep (s : string) :
  PyStr.contains sep (PyStr.before_first sep s) = false.
Proof.
  induction s as [|c s IH]; simpl; [done |].
  destruct (Ascii.eqb c sep) eqn:E; simpl; [done | by rewrite E].
Qed.

Lemma before_from_first (s : string) :
  s = PyStr.before_first sep s +:+ PyStr.from_first sep s.
Proof.
  induction s as [|c s IH]; simpl; [done |].
  destruct (Ascii.eqb c sep); [done |].
  rewrite string_app_cons. by rewrite <- IH.
Qed.

Lemma from_first_shape (s : string) :
  PyStr.from_first sep s = "" ∨
  ∃ rest, PyStr.from_first sep s = String sep rest.
Proof.
  induction s as [|c s IH]; simpl; [by left |].
  destruct (Ascii.eqb c sep) eqn:E; [| exact IH].
  right. apply Ascii.eqb_eq in E. subst c. by exists s.
Qed.

Lemma before_first_id (s : string) :
  PyStr.contains sep s = false → PyStr.before_first sep s = s.
Proof.
  induction s as [|c s IH]; simpl; [done |].
  destruct (Ascii.eqb c sep); simpl; [done |].
  intros H. by rewrite IH.
Qed.

(** Without a separator in it, a string is its own single piece. *)
Lemma split_no_sep (k : option nat) (s : string) :
  PyStr.contains sep s = false → PyStr.split sep k s = [ s ].
Proof.
  induction s as [|c s IH]; simpl; [done |].
  destruct (Ascii.eqb c sep); simpl.
  - by rewrite andb_true_r.
  - intros H. rewrite andb_false_r, (IH H). done.
Qed.

End StringFacts.

(** ** The logger *)

Lemma log_ready (l : MessageLogger.t) (path message : string) (w : World) :
  ready w l path →
  MessageLogger.log l message w =
  (Ok tt, logged (MessageLogger.file l) path (log_line (clock w 0) message) w).
Proof.
  intros Hr. unfold ready in Hr.
  pose proof (lookup_lt_Some _ _ _ Hr) as Hlt.
  unfold MessageLogger.log, PyFile.write, PyFile.flush, PyFile.file_object,
    bind, localtime_now, modify, emit, raise, ret.
  simpl. rewrite Hr. simpl.
  rewrite list_lookup_insert_eq by done. simpl.
  unfold logged, PyFile.drain, log_line, newline, content. simpl.
  rewrite list_insert_insert_eq, (list_insert_id _ _ _ Hr).
  unfold modify, set_trace, set_files, set_disk, set_clock. simpl.
  rewrite <- app_assoc. reflexivity.
Qed.

Lemma new_effects_app (w w' : World) (added : list effect) :
  trace w' = trace w ++ added → new_effects w w' = added.
Proof. intros H. unfold new_effects. rewrite H. apply drop_app_length. Qed.

Section Logged.

Variables (fd : nat) (path line : string) (w : World).

Lemma logged_content : content (logged fd path line w) path = content w path +:+ line.
Proof. unfold content at 1. simpl. by rewrite lookup_insert_eq. Qed.

Lemma logged_content_other (q : string) :
  q ≠ path → content (logged fd path line w) q = content w q.
Proof. intros H. unfold content. simpl. by rewrite lookup_insert_ne. Qed.

Lemma logged_effects :
  new_effects w (logged fd path line w) = [ file_write fd line; file_flush fd ].
Proof. by apply new_effects_app. Qed.

Lemma logged_ready (l : MessageLogger.t) (p : string) :
  ready w l p → ready (logged fd path line w) l p.
Proof. done. Qed.

End Logged.

(** ** The handlers on a session whose logger is ready *)

Ltac run_session Hl :=
  unfold LogBot.get_logger, LogBot.this, LogBot.lift, LogBot.item0, bind, ret,
    raise;
  simpl; rewrite ?Hl; simpl.

Section LiveSession.

Variables (b : LogBot.t) (w : World) (l : MessageLogger.t) (path : string).
Hypothesis Hl : LogBot.logger b = Some l.
Hypothesis Hr : ready w l path.

Abbreviation st := {| LogBot.self := b; LogBot.world := w |}.
Abbreviation fd := (MessageLogger.file l).

Lemma privmsg_live (user channel msg : string) :
  LogBot.privmsg user channel msg st =
  let sender := PyStr.before_first "!" user in
  let w1 := logged fd path
              (log_line (clock w 0) ("<" +:+ sender +:+ "> " +:+ msg)) w in
  (Ok tt,
   {| LogBot.self := b;
      LogBot.world :=
        set_trace
          (trace w1 ++
           [ if String.eqb channel (LogBot.nickname b)
             then IRCClient_msg (LogBot.conn b) sender LogBot.refusal
             else tonkon_command_handler (LogBot.conn b) sender channel msg ])
          w1 |}).
Proof.
  unfold LogBot.privmsg.
  run_session Hl.
  rewrite (split_first_piece "!" (Some 1) user eq_refl). simpl.
  rewrite Hl. simpl.
  rewrite (log_ready l path _ w Hr). cbn [LogBot.self LogBot.world].
  destruct (String.eqb channel (LogBot.nickname b)); reflexivity.
Qed.

Lemma action_live (user channel msg : string) :
  LogBot.action user channel msg st =
  (Ok tt,
   {| LogBot.self := b;
      LogBot.world :=
        logged fd path
          (log_line (clock w 0)
             ("* " +:+ PyStr.before_first "!" user +:+ " " +:+ msg)) w |}).
Proof.
  unfold LogBot.action.
  run_session Hl.
  rewrite (split_first_piece "!" (Some 1) user eq_refl). simpl.
  rewrite Hl. simpl.
  by rewrite (log_ready l path _ w Hr).
Qed.

Lemma irc_NICK_live (prefix new_nick : string) (more : list string) :
  LogBot.irc_NICK prefix (new_nick :: more) st =
  (Ok tt,
   {| LogBot.self := b;
      LogBot.world :=
        logged fd path
          (log_line (clock w 0)
             (PyStr.before_first "!" prefix +:+ " is now known as " +:+
              new_nick)) w |}).
Proof.
  unfold LogBot.irc_NICK.
  run_session Hl.
  rewrite (split_first_piece "!" None prefix eq_refl). simpl.
  rewrite Hl. simpl.
  by rewrite (log_ready l path _ w Hr).
Qed.

Lemma joined_live (channel : string) :
  LogBot.joined channel st =
  (Ok tt,
   {| LogBot.self := b;
      LogBot.world :=
        logged fd path
          (log_line (clock w 0) ("[I have joined " +:+ channel +:+ "]")) w |}).
Proof.
  unfold LogBot.joined.
  run_session Hl.
  by rewrite (log_ready l path _ w Hr).
Qed.

Lemma connectionLost_live (reason : string) :
  let line :=
    log_line (clock w 1)
      ("[disconnected at " +:+ PyTime.asctime (clock w 0) +:+ "]") in
  ∃ w',
    LogBot.connectionLost reason st =
      (Ok tt, {| LogBot.self := b; LogBot.world := w' |}) ∧
    content w' path = content w path +:+ line ∧
    (∀ q, q ≠ path → content w' q = content w q) ∧
    trace w' =
      trace w ++
      [ IRCClient_connectionLost (LogBot.conn b) reason;
        file_write fd line; file_flush fd; file_close fd ] ∧
    files w' !! fd =
      Some {| f_path := path; f_buffer := ""; f_closed := true |}.
Proof.
  intros line.
  pose proof (lookup_lt_Some _ _ _ Hr) as Hlt.
  unfold LogBot.connectionLost.
  run_session Hl.
  unfold emit, modify, localtime_now. simpl.
  erewrite (log_ready l path) by exact Hr. simpl.
  unfold MessageLogger.close, PyFile.close, PyFile.file_object, bind, modify,
    emit, ret.
  simpl. rewrite Hl. simpl. rewrite Hr. simpl.
  unfold modify, PyFile.drain. simpl.
  eexists. split; [reflexivity |].
  repeat split.
  - unfold content. simpl. rewrite !lookup_insert_eq. simpl.
    by rewrite string_app_nil_r.
  - intros q Hq. unfold content. simpl. by rewrite !lookup_insert_ne.
  - simpl. by rewrite <- !app_assoc.
  - simpl. rewrite list_lookup_insert_eq; [done |].
    by rewrite length_insert.
Qed.

End LiveSession.

(** ** Connecting, and losing a connection that never had a logger *)

Lemma connectionMade_opens (b : LogBot.t) (w : World) :
  let path := filename (LogBot.factory b) in
  let fd := length (files w) in
  let l := MessageLogger.init fd in
  let line :=
    log_line (clock w 1)
      ("[connected at " +:+ PyTime.asctime (clock w 0) +:+ "]") in
  can_open w path = true →
  ∃ w',
    LogBot.connectionMade {| LogBot.self := b; LogBot.world := w |} =
      (Ok tt, {| LogBot.self := LogBot.set_logger l b; LogBot.world := w' |}) ∧
    ready w' l path ∧
    content w' path = content w path +:+ line ∧
    (∀ q, q ≠ path → content w' q = content w q) ∧
    trace w' =
      trace w ++
      [ IRCClient_connectionMade (LogBot.conn b); file_open fd path "a";
        file_write fd line; file_flush fd ].
Proof.
  intros path fd l line Hopen.
  unfold LogBot.connectionMade, LogBot.assign_logger, PyFile.open_append.
  run_session Hopen.
  unfold emit, modify, localtime_now. simpl.
  fold path. rewrite Hopen. simpl.
  assert (Hmid : ∀ fs : list File,
             (fs ++ [ {| f_path := path; f_buffer := ""; f_closed := false |} ])
               !! length fs =
             Some {| f_path := path; f_buffer := ""; f_closed := false |}).
  { intros fs. apply list_lookup_middle. reflexivity. }
  erewrite (log_ready l path) by exact (Hmid (files w)).
  eexists. split; [reflexivity |].
  repeat split.
  - exact (Hmid (files w)).
  - rewrite logged_content. f_equal.
    unfold content. simpl. by rewrite lookup_insert_eq.
  - intros q Hq. rewrite logged_content_other by done.
    unfold content. simpl. by rewrite lookup_insert_ne.
  - simpl. by rewrite <- !app_assoc.
Qed.

Lemma connectionMade_refused (b : LogBot.t) (w : World) :
  can_open w (filename (LogBot.factory b)) = false →
  LogBot.connectionMade {| LogBot.self := b; LogBot.world := w |} =
  (Raise (IOError (filename (LogBot.factory b))),
   {| LogBot.self := b;
      LogBot.world :=
        set_trace (trace w ++ [ IRCClient_connectionMade (LogBot.conn b) ]) w |}).
Proof.
  intros Hno.
  unfold LogBot.connectionMade, LogBot.assign_logger, PyFile.open_append.
  run_session Hno.
  unfold emit, modify. simpl. by rewrite ?Hno.
Qed.

Lemma connectionLost_no_logger (b : LogBot.t) (w : World) (reason : string) :
  LogBot.logger b = None →
  LogBot.connectionLost reason {| LogBot.self := b; LogBot.world := w |} =
  (Raise (AttributeError "logger"),
   {| LogBot.self := b;
      LogBot.world :=
        set_trace (trace w ++ [ IRCClient_connectionLost (LogBot.conn b) reason ])
                  w |}).
Proof.
  intros Hno. unfold LogBot.connectionLost.
  run_session Hno. unfold emit, modify. simpl. by rewrite ?Hno.
Qed.

Lemma signedOn_joins (b : LogBot.t) (w : World) :
  LogBot.signedOn {| LogBot.self := b; LogBot.world := w |} =
  (Ok tt,
   {| LogBot.self := b;
      LogBot.world :=
        set_trace
          (trace w ++
           [ IRCClient_join (LogBot.conn b) (channel (LogBot.factory b))
                            (key (LogBot.factory b)) ])
          w |}).
Proof. reflexivity. Qed.

(** ** Files on disk only grow *)

Lemma grows_refl (w : World) : grows w w.
Proof. intros p. exists "". by rewrite string_app_nil_r. Qed.

Lemma grows_trans (w1 w2 w3 : World) : grows w1 w2 → grows w2 w3 → grows w1 w3.
Proof.
  intros H12 H23 p. destruct (H12 p) as [m1 E1], (H23 p) as [m2 E2].
  exists (m1 +:+ m2). by rewrite E2, E1, string_app_assoc.
Qed.

Lemma grows_same_disk (w w' : World) : disk w' = disk w → grows w w'.
Proof.
  intros E p. exists "". unfold content. by rewrite E, string_app_nil_r.
Qed.

Lemma grows_drain (fd : nat) (f : File) (w : World) :
  grows w (PyFile.drain fd f w).
Proof.
  intros p. unfold PyFile.drain, content. simpl.
  destruct (decide (f_path f = p)) as [-> | Hne].
  - exists (f_buffer f). by rewrite lookup_insert_eq.
  - exists "". by rewrite lookup_insert_ne, string_app_nil_r.
Qed.

Create HintDb grow.

Section Keeps.

Context {A B : Type}.

Lemma keeps_ret (a : A) : keeps (ret a).
Proof. intros w. apply grows_refl. Qed.

Lemma keeps_raise (e : exn) : keeps (@raise World A e).
Proof. intros w. apply grows_refl. Qed.

Lemma keeps_bind (m : M World A) (k : A → M World B) :
  keeps m → (∀ a, keeps (k a)) → keeps (bind m k).
Proof.
  intros Hm Hk w. unfold bind. specialize (Hm w).
  destruct (m w) as [[a | e] w1]; simpl in *; [| done].
  eapply grows_trans; [exact Hm | apply Hk].
Qed.

Lemma steady_ret (a : A) : steady (ret a).
Proof. intros st. apply grows_refl. Qed.

Lemma steady_raise (e : exn) : steady (@raise LogBot.State A e).
Proof. intros st. apply grows_refl. Qed.

Lemma steady_bind (m : M LogBot.State A) (k : A → M LogBot.State B) :
  steady m → (∀ a, steady (k a)) → steady (bind m k).
Proof.
  intros Hm Hk st. unfold bind. specialize (Hm st).
  destruct (m st) as [[a | e] st1]; simpl in *; [| done].
  eapply grows_trans; [exact Hm | apply Hk].
Qed.

Lemma steady_lift (m : M World A) : keeps m → steady (LogBot.lift m).
Proof.
  intros Hm st. unfold LogBot.lift. specialize (Hm (LogBot.world st)).
  by destruct (m (LogBot.world st)).
Qed.

End Keeps.

Lemma keeps_modify (f : World → World) :
  (∀ w, disk (f w) = disk w) → keeps (modify f).
Proof. intros H w. apply grows_same_disk. exact (H w). Qed.

Lemma keeps_emit (e : effect) : keeps (emit e).
Proof. by apply keeps_modify. Qed.

Lemma keeps_get : keeps (@get World).
Proof. intros w. apply grows_refl. Qed.

Lemma keeps_localtime_now : keeps localtime_now.
Proof. intros w. apply grows_same_disk. reflexivity. Qed.

Lemma keeps_file_object (fd : nat) : keeps (PyFile.file_object fd).
Proof.
  intros w. unfold PyFile.file_object.
  destruct (files w !! fd); apply grows_refl.
Qed.

#[export] Hint Resolve keeps_ret keeps_raise keeps_emit keeps_get
  keeps_localtime_now keeps_file_object steady_ret steady_raise : grow.

Lemma keeps_open_append (path : string) : keeps (PyFile.open_append path).
Proof.
  intros w. unfold PyFile.open_append.
  destruct (can_open w path); [| apply grows_refl].
  intros p. exists "". unfold content. simpl.
  destruct (decide (path = p)) as [-> | Hne].
  - by rewrite lookup_insert_eq, string_app_nil_r.
  - by rewrite lookup_insert_ne, string_app_nil_r.
Qed.

Lemma keeps_write (fd : nat) (data : string) : keeps (PyFile.write fd data).
Proof.
  unfold PyFile.write. apply keeps_bind; [auto with grow |].
  intros f. destruct (f_closed f); [auto with grow |].
  apply keeps_bind; [by apply keeps_modify | auto with grow].
Qed.

Lemma keeps_flush (fd : nat) : keeps (PyFile.flush fd).
Proof.
  unfold PyFile.flush. apply keeps_bind; [auto with grow |].
  intros f. destruct (f_closed f); [auto with grow |].
  apply keeps_bind; [| auto with grow].
  intros w. apply grows_drain.
Qed.

Lemma keeps_close (fd : nat) : keeps (PyFile.close fd).
Proof.
  unfold PyFile.close. apply keeps_bind; [auto with grow |].
  intros f. destruct (f_closed f); [auto with grow |].
  apply keeps_bind; [intros w; apply grows_drain |].
  intros _. apply keeps_bind; [by apply keeps_modify | auto with grow].
Qed.

Lemma keeps_log (l : MessageLogger.t) (message : string) :
  keeps (MessageLogger.log l message).
Proof.
  unfold MessageLogger.log. apply keeps_bind; [auto with grow |].
  intros now. apply keeps_bind; [apply keeps_write |].
  intros _. apply keeps_flush.
Qed.

Lemma keeps_logger_close (l : MessageLogger.t) : keeps (MessageLogger.close l).
Proof. apply keeps_close. Qed.

Lemma keeps_buildProtocol (f : Factory) : keeps (LogBotFactory.buildProtocol f).
Proof. intros w. apply grows_same_disk. reflexivity. Qed.

Lemma steady_if {A : Type} (c : bool) (m1 m2 : M LogBot.State A) :
  steady m1 → steady m2 → steady (if c then m1 else m2).
Proof. by destruct c. Qed.

Lemma steady_this : steady LogBot.this.
Proof. intros st. apply grows_refl. Qed.

Lemma steady_get_logger : steady LogBot.get_logger.
Proof.
  unfold LogBot.get_logger. apply steady_bind; [apply steady_this |].
  intros b. destruct (LogBot.logger b); auto with grow.
Qed.

Lemma steady_item0 (xs : list string) : steady (LogBot.item0 xs).
Proof. unfold LogBot.item0. destruct (xs !! 0); auto with grow. Qed.

Lemma steady_self_update (f : LogBot.State → LogBot.t) :
  steady (modify (fun st => {| LogBot.self := f st;
                               LogBot.world := LogBot.world st |})).
Proof. intros st. apply grows_refl. Qed.

#[export] Hint Resolve keeps_open_append keeps_write keeps_flush keeps_close
  keeps_log keeps_logger_close keeps_buildProtocol steady_this
  steady_get_logger steady_item0 steady_lift : grow.

Ltac steadily :=
  repeat first
    [ solve [ auto with grow ]
    | apply steady_self_update
    | apply steady_if
    | apply steady_bind; [| intros ? ] ].

Lemma deliver_steady (cb : callback) : steady (deliver cb).
Proof.
  destruct cb; simpl;
    unfold LogBot.connectionMade, LogBot.connectionLost, LogBot.signedOn,
      LogBot.joined, LogBot.privmsg, LogBot.action, LogBot.irc_NICK,
      LogBot.assign_logger;
    steadily.
Qed.

Lemma deliver_all_grows (cbs : list callback) (st : LogBot.State) :
  grows (LogBot.world st) (LogBot.world (deliver_all cbs st)).
Proof.
  revert st. induction cbs as [|cb cbs IH]; intros st; simpl.
  - apply grows_refl.
  - eapply grows_trans; [apply deliver_steady | apply IH].
Qed.

(** ** The timestamp *)

Lemma zero2_length (n : nat) : n < 100 → String.length (PyStr.zero2 n) = 2.
Proof.
  intros Hn.
  assert (Hall : forallb (fun k => Nat.eqb (String.length (PyStr.zero2 k)) 2)
                         (seq 0 100) = true) by (vm_compute; reflexivity).
  rewrite forallb_forall in Hall.
  apply Nat.eqb_eq, Hall, in_seq. lia.
Qed.

(** [[HH:MM:SS]] is ten characters wide. *)
Lemma strftime_HMS_length (t : PyTime.struct_time) :
  PyTime.well_formed t → String.length (PyTime.strftime_HMS t) = 10.
Proof.
  intros (_ & _ & Hh & Hm & Hs & _).
  unfold PyTime.strftime_HMS, PyTime.clock_text.
  rewrite !string_length_app, !zero2_length by lia. reflexivity.
Qed.

(** ** The supervisor *)

Section Supervisor.

Variables (f : Factory) (reason : string).

Lemma supervise_lost (w : World) :
  supervise f (lost reason) w = (Ok tt, redialled w).
Proof. reflexivity. Qed.

Lemma clientConnectionLost_redials (w : World) :
  c_state (connector w) = disconnected →
  LogBotFactory.clientConnectionLost f reason w = (Ok tt, redialled w).
Proof.
  intros Hs. unfold LogBotFactory.clientConnectionLost, Twisted.connect, bind,
    get. by rewrite Hs.
Qed.

Lemma clientConnectionFailed_stops (w : World) :
  reactor_running w = true →
  LogBotFactory.clientConnectionFailed f reason w =
  (Ok tt,
   set_trace
     (trace w ++
      [ print ("connection failed: " +:+ reason +:+ newline); reactor_stop ])
     (set_reactor_running false w)).
Proof.
  intros Hrun. unfold LogBotFactory.clientConnectionFailed, Twisted.stop,
    bind, get, emit, modify. simpl. rewrite Hrun. simpl.
  unfold set_trace. simpl. by rewrite <- app_assoc.
Qed.

Lemma supervise_drops (n : nat) (w : World) :
  ∃ w',
    supervise_all f (drops n reason) w = (Ok tt, w') ∧
    trace w' = trace w ++ repeat (dial w) n ∧
    reactor_running w' = reactor_running w ∧
    c_host (connector w') = c_host (connector w) ∧
    c_port (connector w') = c_port (connector w).
Proof.
  revert w. induction n as [|n IH]; intros w.
  - exists w. simpl. by rewrite app_nil_r.
  - pose (w1 := redialled (set_connector
                   {| c_host := c_host (connector w);
                      c_port := c_port (connector w);
                      c_state := connected |} w)).
    assert (E : supervise_all f (drops (S n) reason) w =
                supervise_all f (drops n reason) w1) by reflexivity.
    destruct (IH w1) as (w' & Hrun & Htr & Hre & Hh & Hp).
    exists w'. rewrite E, Htr, Hre, Hh, Hp.
    split; [exact Hrun |]. simpl. by rewrite <- app_assoc.
Qed.

End Supervisor.

(** ** Nickname collisions *)

Lemma candidate_length (k : nat) (nickname : string) :
  String.length (candidate k nickname) = String.length nickname + k.
Proof.
  induction k as [|k IH]; simpl; [lia |].
  unfold LogBot.alterCollidedNick. rewrite string_length_app, IH. simpl. lia.
Qed.

Lemma candidate_inj (nickname : string) :
  Inj (=) (=) (fun k => candidate k nickname).
Proof.
  intros i j E. apply (f_equal String.length) in E.
  rewrite !candidate_length in E. lia.
Qed.

Lemma count_app (c : ascii) (a b : string) :
  PyStr.count c (a +:+ b) = PyStr.count c a + PyStr.count c b.
Proof.
  induction a as [|x a IH]; [reflexivity |].
  rewrite string_app_cons. simpl. rewrite IH. lia.
Qed.

Lemma zero2_no_newline (n : nat) : n < 100 → PyStr.count "010" (PyStr.zero2 n) = 0.
Proof.
  intros Hn.
  assert (Hall : forallb (fun k => Nat.eqb (PyStr.count "010" (PyStr.zero2 k)) 0)
                         (seq 0 100) = true) by (vm_compute; reflexivity).
  rewrite forallb_forall in Hall.
  apply Nat.eqb_eq, Hall, in_seq. lia.
Qed.

(** A message without a line break is logged as one line. *)
Lemma log_line_one_line (now : PyTime.struct_time) (message : string) :
  PyTime.well_formed now →
  PyStr.count "010" message = 0 →
  PyStr.count "010" (log_line now message) = 1.
Proof.
  intros (_ & _ & Hh & Hm & Hs & _) Hmsg.
  unfold log_line, PyTime.strftime_HMS, PyTime.clock_text, newline.
  rewrite !count_app, !zero2_no_newline, Hmsg by lia. reflexivity.
Qed.

(** The logged text has one line break more than the message. *)
Lemma log_line_newlines (now : PyTime.struct_time) (message : string) :
  PyTime.well_formed now →
  PyStr.count "010" (log_line now message) = S (PyStr.count "010" message).
Proof.
  intros (_ & _ & Hh & Hm & Hs & _).
  unfold log_line, PyTime.strftime_HMS, PyTime.clock_text, newline.
  rewrite !count_app, !zero2_no_newline by lia. simpl. lia.
Qed.

(** ** What a handler that logs one line does *)

Lemma logged_logs_line (m : M LogBot.State unit) (b : LogBot.t) (w : World)
    (l : MessageLogger.t) (path text : string) (next : list effect) :
  let w1 := logged (MessageLogger.file l) path (log_line (clock w 0) text) w in
  ready w l path →
  m {| LogBot.self := b; LogBot.world := w |} =
    (Ok tt, {| LogBot.self := b;
               LogBot.world := set_trace (trace w1 ++ next) w1 |}) →
  logs_line m {| LogBot.self := b; LogBot.world := w |} l path text next.
Proof.
  intros w1 Hr Hm. unfold logs_line. simpl.
  exists (set_trace (trace w1 ++ next) w1). split; [exact Hm |].
  repeat split.
  - apply logged_content.
  - intros q Hq. by apply logged_content_other.
  - apply new_effects_app. simpl. by rewrite <- app_assoc.
  - exact Hr.
Qed.

Lemma set_trace_nil (w : World) : set_trace (trace w ++ []) w = w.
Proof. destruct w. unfold set_trace. simpl. by rewrite app_nil_r. Qed.

Lemma not_in_two_file_effects (e : effect) (fd : nat) (line : string)
    (last : effect) :
  e ∈ [ file_write fd line; file_flush fd; last ] →
  e = file_write fd line ∨ e = file_flush fd ∨ e = last.
Proof.
  intros H. repeat (apply elem_of_cons in H as [H | H]; [by auto |]).
  by apply elem_of_nil in H.
Qed.

(** * The claims *)

(** C1. A message whose channel target is the bot's own nickname: the bot
    first writes the one log line [<sender> text] (sender without its
    routing metadata), then sends that sender one reply with the fixed
    refusal text, and the command handler is not called. *)
Theorem privmsg_private_refused (st : LogBot.State) (l : MessageLogger.t)
    (path user channel msg : string) :
  LogBot.logger (LogBot.self st) = Some l →
  ready (LogBot.world st) l path →
  channel = LogBot.nickname (LogBot.self st) →
  let sender := PyStr.before_first "!" user in
  logs_line (LogBot.privmsg user channel msg) st l path
    ("<" +:+ sender +:+ "> " +:+ msg)
    [ IRCClient_msg (LogBot.conn (LogBot.self st)) sender
        "It isn't nice to whisper!  Play nice with the group." ] ∧
  ∀ c u ch m,
    tonkon_command_handler c u ch m ∉
    new_effects (LogBot.world st)
      (LogBot.world (snd (LogBot.privmsg user channel msg st))).
Proof.
  intros Hl Hr Hc sender. destruct st as [b w]. simpl in *.
  assert (Hrun := privmsg_live b w l path Hl Hr user channel msg).
  simpl in Hrun. subst channel. rewrite String.eqb_refl in Hrun.
  split.
  - by apply logged_logs_line.
  - intros c u ch m. rewrite Hrun. simpl.
    erewrite new_effects_app; [| simpl; by rewrite <- app_assoc].
    intros Hin. apply not_in_two_file_effects in Hin.
    destruct Hin as [Hin | [Hin | Hin]]; discriminate Hin.
Qed.

Lemma privmsg_private_refused_witness :
  logs_line (LogBot.privmsg "bob!bob@example.org" "tonkon" "psst") live0
    (MessageLogger.init 0) "logs/test" "<bob> psst"
    [ IRCClient_msg 0 "bob"
        "It isn't nice to whisper!  Play nice with the group." ].
Proof.
  apply (privmsg_private_refused live0 (MessageLogger.init 0) "logs/test"
           "bob!bob@example.org" "tonkon" "psst"); reflexivity.
Defined.

(** C3. A public channel message [msg] from [user]: exactly one log line
    [<sender> msg] is written, where [sender] is [user] cut before its
    first ['!'], and after the write the message goes to the command
    handler with the connection, the sender, the channel and the text. *)
Theorem privmsg_public_logged_then_forwarded (st : LogBot.State)
    (l : MessageLogger.t) (path user channel msg : string) :
  LogBot.logger (LogBot.self st) = Some l →
  ready (LogBot.world st) l path →
  channel ≠ LogBot.nickname (LogBot.self st) →
  let sender := PyStr.before_first "!" user in
  logs_line (LogBot.privmsg user channel msg) st l path
    ("<" +:+ sender +:+ "> " +:+ msg)
    [ tonkon_command_handler (LogBot.conn (LogBot.self st)) sender channel msg ] ∧
  user = sender +:+ PyStr.from_first "!" user ∧
  PyStr.contains "!" sender = false ∧
  (PyStr.from_first "!" user = "" ∨
   ∃ rest, PyStr.from_first "!" user = String "!" rest).
Proof.
  intros Hl Hr Hc sender. destruct st as [b w]. simpl in *.
  assert (Hrun := privmsg_live b w l path Hl Hr user channel msg).
  simpl in Hrun. apply String.eqb_neq in Hc. rewrite Hc in Hrun.
  split; [by apply logged_logs_line |].
  split; [apply before_from_first |].
  split; [apply before_first_no_sep | apply from_first_shape].
Qed.

Lemma privmsg_public_logged_then_forwarded_witness :
  logs_line (LogBot.privmsg "alice!al@example.org" "test" "hello") live0
    (MessageLogger.init 0) "logs/test" "<alice> hello"
    [ tonkon_command_handler 0 "alice" "test" "hello" ].
Proof.
  apply (privmsg_public_logged_then_forwarded live0 (MessageLogger.init 0)
           "logs/test" "alice!al@example.org" "test" "hello");
    [reflexivity | reflexivity | discriminate].
Defined.

(** C9. Whether a message is private is decided by exact, case-sensitive
    equality of its channel target with the bot's nickname: the command
    handler is called exactly when the two differ, in whatever character,
    and a reply is sent exactly when they are equal. *)
Theorem privmsg_private_iff_exact_nickname (st : LogBot.State)
    (l : MessageLogger.t) (path user channel msg : string) :
  LogBot.logger (LogBot.self st) = Some l →
  ready (LogBot.world st) l path →
  let me := LogBot.self st in
  let sender := PyStr.before_first "!" user in
  let added :=
    new_effects (LogBot.world st)
      (LogBot.world (snd (LogBot.privmsg user channel msg st))) in
  fst (LogBot.privmsg user channel msg st) = Ok tt ∧
  (tonkon_command_handler (LogBot.conn me) sender channel msg ∈ added ↔
   channel ≠ LogBot.nickname me) ∧
  ((∃ c u t, IRCClient_msg c u t ∈ added) ↔ channel = LogBot.nickname me).
Proof.
  intros Hl Hr me sender added. subst me added. destruct st as [b w].
  simpl in *.
  rewrite (privmsg_live b w l path Hl Hr user channel msg). simpl.
  erewrite new_effects_app; [| simpl; by rewrite <- app_assoc].
  split; [reflexivity |].
  destruct (String.eqb_spec channel (LogBot.nickname b)) as [E | N].
  - split; split.
    + intros Hin. apply not_in_two_file_effects in Hin.
      destruct Hin as [Hin | [Hin | Hin]]; discriminate Hin.
    + done.
    + done.
    + intros _. eexists _, _, _. do 2 apply list_elem_of_further.
      apply list_elem_of_here.
  - split; split.
    + done.
    + intros _. do 2 apply list_elem_of_further. apply list_elem_of_here.
    + intros (c & u & t & Hin). apply not_in_two_file_effects in Hin.
      destruct Hin as [Hin | [Hin | Hin]]; discriminate Hin.
    + done.
Qed.

Lemma privmsg_private_iff_exact_nickname_witness :
  tonkon_command_handler 0 "bob" "Tonkon" "hi" ∈
  new_effects (LogBot.world live0)
    (LogBot.world (snd (LogBot.privmsg "bob!b@example.org" "Tonkon" "hi" live0))).
Proof.
  apply (privmsg_private_iff_exact_nickname live0 (MessageLogger.init 0)
           "logs/test" "bob!b@example.org" "Tonkon" "hi" eq_refl eq_refl).
  discriminate.
Defined.

(** C10. A sender identifier without ['!'] is used whole and unchanged as
    the display name: in the log line and the forwarded call of the
    message handler, in the log line of the action handler and in the log
    line of the nick-change handler. *)
Theorem sender_without_bang_unchanged (st : LogBot.State)
    (l : MessageLogger.t) (path user channel msg new_nick : string)
    (more : list string) :
  LogBot.logger (LogBot.self st) = Some l →
  ready (LogBot.world st) l path →
  PyStr.contains "!" user = false →
  let me := LogBot.self st in
  PyStr.split "!" (Some 1) user = [ user ] ∧
  PyStr.split "!" None user = [ user ] ∧
  logs_line (LogBot.privmsg user channel msg) st l path
    ("<" +:+ user +:+ "> " +:+ msg)
    [ if String.eqb channel (LogBot.nickname me)
      then IRCClient_msg (LogBot.conn me) user LogBot.refusal
      else tonkon_command_handler (LogBot.conn me) user channel msg ] ∧
  logs_line (LogBot.action user channel msg) st l path
    ("* " +:+ user +:+ " " +:+ msg) [] ∧
  logs_line (LogBot.irc_NICK user (new_nick :: more)) st l path
    (user +:+ " is now known as " +:+ new_nick) [].
Proof.
  intros Hl Hr Hno me. subst me. destruct st as [b w]. simpl in *.
  pose proof (before_first_id "!" user Hno) as Hid.
  split; [by apply split_no_sep |].
  split; [by apply split_no_sep |].
  split; [| split].
  - apply logged_logs_line; [done |].
    rewrite (privmsg_live b w l path Hl Hr user channel msg). simpl.
    by rewrite Hid.
  - apply logged_logs_line; [done |].
    rewrite (action_live b w l path Hl Hr user channel msg).
    by rewrite Hid, set_trace_nil.
  - apply logged_logs_line; [done |].
    rewrite (irc_NICK_live b w l path Hl Hr user new_nick more).
    by rewrite Hid, set_trace_nil.
Qed.

Lemma sender_without_bang_unchanged_witness :
  logs_line (LogBot.action "alice" "test" "waves") live0
    (MessageLogger.init 0) "logs/test" "* alice waves" [].
Proof.
  apply (sender_without_bang_unchanged live0 (MessageLogger.init 0)
           "logs/test" "alice" "test" "waves" "al" []); reflexivity.
Defined.

(** C8. On sign-on the bot issues exactly one join request, with the
    configured channel and key; on a join confirmation for channel [c] it
    writes exactly one log line [[I have joined c]]. *)
Theorem signedOn_joins_and_joined_logs :
  (∀ st : LogBot.State,
     let me := LogBot.self st in
     ∃ w',
       LogBot.signedOn st = (Ok tt, {| LogBot.self := me; LogBot.world := w' |}) ∧
       new_effects (LogBot.world st) w' =
         [ IRCClient_join (LogBot.conn me) (channel (LogBot.factory me))
                          (key (LogBot.factory me)) ] ∧
       disk w' = disk (LogBot.world st)) ∧
  (∀ (st : LogBot.State) (l : MessageLogger.t) (path c : string),
     LogBot.logger (LogBot.self st) = Some l →
     ready (LogBot.world st) l path →
     logs_line (LogBot.joined c) st l path ("[I have joined " +:+ c +:+ "]") []).
Proof.
  split.
  - intros [b w] me. eexists. split; [apply signedOn_joins |].
    split; [by apply new_effects_app | reflexivity].
  - intros [b w] l path c Hl Hr. simpl in *.
    apply logged_logs_line; [done |].
    rewrite (joined_live b w l path Hl Hr c). by rewrite set_trace_nil.
Qed.

Lemma signedOn_joins_and_joined_logs_witness :
  logs_line (LogBot.joined "test") live0 (MessageLogger.init 0) "logs/test"
    "[I have joined test]" [].
Proof.
  apply (proj2 signedOn_joins_and_joined_logs live0 (MessageLogger.init 0)
           "logs/test" "test"); reflexivity.
Defined.

(** C5, amended.  [log(m)] on a ready logger appends to its file
    exactly the text [[HH:MM:SS]], a space, [m] and a newline, where the
    time is the local time read by the call; it writes once and flushes,
    so that nothing is left in the buffer.  [m] is written as it is: the
    text has one line break more than [m], and is one line exactly when
    [m] has none. *)
Theorem log_appends_stamped_line_and_flushes (l : MessageLogger.t)
    (path m : string) (w : World) :
  ready w l path →
  let now := clock w 0 in
  let stamp :=
    "[" +:+ PyStr.zero2 (PyTime.tm_hour now) +:+ ":" +:+
    PyStr.zero2 (PyTime.tm_min now) +:+ ":" +:+
    PyStr.zero2 (PyTime.tm_sec now) +:+ "]" in
  let line := stamp +:+ " " +:+ m +:+ newline in
  ∃ w',
    MessageLogger.log l m w = (Ok tt, w') ∧
    content w' path = content w path +:+ line ∧
    (∀ q, q ≠ path → content w' q = content w q) ∧
    new_effects w w' =
      [ file_write (MessageLogger.file l) line;
        file_flush (MessageLogger.file l) ] ∧
    ready w' l path ∧
    (PyTime.well_formed now → String.length stamp = 10) ∧
    (PyTime.well_formed now →
     PyStr.count "010" line = S (PyStr.count "010" m) ∧
     (PyStr.count "010" line = 1 ↔ PyStr.count "010" m = 0)).
Proof.
  intros Hr now stamp line.
  assert (Hline : line = log_line now m).
  { unfold line, stamp, log_line, PyTime.strftime_HMS, PyTime.clock_text.
    by rewrite !string_app_assoc. }
  exists (logged (MessageLogger.file l) path line w).
  split; [rewrite Hline; by apply log_ready |].
  split; [apply logged_content |].
  split; [intros q Hq; by apply logged_content_other |].
  split; [apply logged_effects |].
  split; [exact Hr |].
  split.
  - intros Hwf. rewrite <- (strftime_HMS_length now Hwf).
    unfold stamp, PyTime.strftime_HMS, PyTime.clock_text.
    by rewrite !string_app_assoc.
  - intros Hwf. rewrite Hline, (log_line_newlines now m Hwf).
    split; [reflexivity | lia].
Qed.

Lemma log_appends_stamped_line_and_flushes_witness :
  ∃ w',
    MessageLogger.log (MessageLogger.init 0) "hello" (LogBot.world live0) =
      (Ok tt, w') ∧
    content w' "logs/test" =
      content (LogBot.world live0) "logs/test" +:+
      ("[12:00:07] hello" +:+ newline).
Proof.
  destruct (log_appends_stamped_line_and_flushes (MessageLogger.init 0)
              "logs/test" "hello" (LogBot.world live0) eq_refl)
    as (w' & Hrun & Hcontent & _).
  exists w'. split; [exact Hrun | exact Hcontent].
Defined.

(** C5 at a message with a line break in it: [log] succeeds and what it
    appends to the file is two lines, not one. *)
Lemma log_of_two_line_message_appends_two_lines :
  fst (MessageLogger.log (MessageLogger.init 0) two_line_message
         (LogBot.world live0)) = Ok tt ∧
  content
    (snd (MessageLogger.log (MessageLogger.init 0) two_line_message
            (LogBot.world live0)))
    "logs/test" =
  content (LogBot.world live0) "logs/test" +:+
  ("[12:00:07] a" +:+ newline +:+ "b" +:+ newline) ∧
  PyStr.count "010" ("[12:00:07] a" +:+ newline +:+ "b" +:+ newline) = 2 ∧
  PyStr.count "010" ("[12:00:07] a" +:+ newline +:+ "b" +:+ newline) ≠ 1.
Proof.
  split; [vm_compute; reflexivity |].
  split; [vm_compute; reflexivity |].
  split; [vm_compute; reflexivity | vm_compute; discriminate].
Qed.

(** C6. The collision rule appends exactly one fixed marker character,
    ['^'], to the candidate it is given; so in a run of collisions every
    candidate is its predecessor plus that character, and the candidates
    are pairwise distinct. *)
Theorem alterCollidedNick_appends_marker (nickname : string) (k : nat) :
  LogBot.alterCollidedNick nickname = nickname +:+ String "^" "" ∧
  String.length (LogBot.alterCollidedNick nickname) =
    S (String.length nickname) ∧
  candidate (S k) nickname = candidate k nickname +:+ String "^" "" ∧
  NoDup ((fun i => candidate i nickname) <$> seq 0 k).
Proof.
  split; [reflexivity |].
  split.
  - unfold LogBot.alterCollidedNick. rewrite string_length_app. simpl. lia.
  - split; [reflexivity |].
    apply NoDup_fmap_2; [apply candidate_inj | apply NoDup_seq].
Qed.

(** C2. The supervisor treats the two failures differently.  A connect
    failure prints the reason and stops the reactor, and dials nothing.
    The loss of an established connection dials again at once, the same
    host and port for the same factory; [n] losses in a row give [n]
    dials and the reactor keeps running. *)
Theorem supervisor_stops_on_failure_redials_on_loss (f : Factory)
    (reason : string) (w : World) (n : nat) :
  reactor_running w = true →
  let again := connector_connect (c_host (connector w)) (c_port (connector w)) in
  (∃ w',
     supervise f (failed reason) w = (Ok tt, w') ∧
     new_effects w w' =
       [ print ("connection failed: " +:+ reason +:+ newline); reactor_stop ] ∧
     reactor_running w' = false ∧
     c_state (connector w') = disconnected) ∧
  (∃ w',
     supervise f (lost reason) w = (Ok tt, w') ∧
     new_effects w w' = [ again ] ∧
     reactor_running w' = true ∧
     c_state (connector w') = connecting) ∧
  (∃ w',
     supervise_all f (drops n reason) w = (Ok tt, w') ∧
     new_effects w w' = repeat again n ∧
     reactor_running w' = true).
Proof.
  intros Hrun again. split; [| split].
  - eexists. split.
    + unfold supervise, bind. simpl.
      by rewrite clientConnectionFailed_stops.
    + repeat split. by apply new_effects_app.
  - exists (redialled w). split; [apply supervise_lost |].
    repeat split; [by apply new_effects_app | exact Hrun].
  - destruct (supervise_drops f reason n w) as (w' & Hgo & Htr & Hre & _).
    exists w'. split; [exact Hgo |].
    split; [by apply new_effects_app | by rewrite Hre].
Qed.

Lemma supervisor_stops_on_failure_redials_on_loss_witness :
  (∃ w',
     supervise factory0 (failed "connection refused") world0 = (Ok tt, w') ∧
     new_effects world0 w' =
       [ print ("connection failed: connection refused" +:+ newline);
         reactor_stop ] ∧
     reactor_running w' = false) ∧
  (∃ w',
     supervise_all factory0 (drops 3 "connection refused") world0 = (Ok tt, w') ∧
     new_effects world0 w' =
       repeat (connector_connect "irc.example.net" 6697%N) 3 ∧
     reactor_running w' = true).
Proof.
  destruct (supervisor_stops_on_failure_redials_on_loss factory0
              "connection refused" world0 3 eq_refl)
    as ((w1 & Hrun1 & Hnew1 & Hstop & _) & _ & Hdrops).
  split; [| exact Hdrops].
  exists w1. split; [exact Hrun1 |]. split; [exact Hnew1 | exact Hstop].
Defined.

(** C4 at [stuck0]: [connectionMade] could not open the log file, so the
    logger was never initialised; the loss of the connection then raises
    [AttributeError], and no logger is closed. *)
Lemma connectionLost_without_logger_raises :
  fst (deliver on_connectionMade
         (deliver_all [ new_session ]
            {| LogBot.self := LogBot.self fresh0;
               LogBot.world := world_without_logs |})) =
    Raise (IOError "logs/test") ∧
  LogBot.logger (LogBot.self stuck0) = None ∧
  fst (LogBot.connectionLost "connection reset" stuck0) =
    Raise (AttributeError "logger") ∧
  new_effects (LogBot.world stuck0)
    (LogBot.world (snd (LogBot.connectionLost "connection reset" stuck0))) =
    [ IRCClient_connectionLost 0 "connection reset" ].
Proof. repeat split; vm_compute; reflexivity. Qed.

(** C4, amended.  When the logger is ready, the loss of the connection
    logs the disconnection line, with the date and the time, and then
    closes the logger.  When the logger was never initialised there is no
    guard: the handler raises [AttributeError] after the base class call,
    and nothing is logged or closed. *)
Theorem connectionLost_teardown (reason : string) :
  (∀ (st : LogBot.State) (l : MessageLogger.t) (path : string),
     LogBot.logger (LogBot.self st) = Some l →
     ready (LogBot.world st) l path →
     let me := LogBot.self st in
     let w := LogBot.world st in
     let fd := MessageLogger.file l in
     let line :=
       log_line (clock w 1)
         ("[disconnected at " +:+ PyTime.asctime (clock w 0) +:+ "]") in
     ∃ w',
       LogBot.connectionLost reason st =
         (Ok tt, {| LogBot.self := me; LogBot.world := w' |}) ∧
       content w' path = content w path +:+ line ∧
       new_effects w w' =
         [ IRCClient_connectionLost (LogBot.conn me) reason;
           file_write fd line; file_flush fd; file_close fd ] ∧
       files w' !! fd =
         Some {| f_path := path; f_buffer := ""; f_closed := true |}) ∧
  (∀ st : LogBot.State,
     LogBot.logger (LogBot.self st) = None →
     let me := LogBot.self st in
     let w := LogBot.world st in
     ∃ w',
       LogBot.connectionLost reason st =
         (Raise (AttributeError "logger"),
          {| LogBot.self := me; LogBot.world := w' |}) ∧
       new_effects w w' = [ IRCClient_connectionLost (LogBot.conn me) reason ] ∧
       disk w' = disk w ∧ files w' = files w).
Proof.
  split.
  - intros [b w] l path Hl Hr me w0 fd line. simpl in *.
    destruct (connectionLost_live b w l path Hl Hr reason)
      as (w' & Hrun & Hc & _ & Htr & Hf).
    exists w'. split; [exact Hrun |].
    split; [exact Hc |]. split; [by apply new_effects_app | exact Hf].
  - intros [b w] Hno me w0. simpl in *.
    eexists. split; [by apply connectionLost_no_logger |].
    split; [by apply new_effects_app | by split].
Qed.

Lemma connectionLost_teardown_witness :
  ∃ w',
    LogBot.connectionLost "connection reset" live0 =
      (Ok tt, {| LogBot.self := LogBot.self live0; LogBot.world := w' |}) ∧
    content w' "logs/test" =
      content (LogBot.world live0) "logs/test" +:+
      ("[12:00:07] [disconnected at Sun Mar  9 12:00:07 2014]" +:+ newline).
Proof.
  destruct (proj1 (connectionLost_teardown "connection reset") live0
              (MessageLogger.init 0) "logs/test" eq_refl eq_refl)
    as (w' & Hrun & Hcontent & _).
  exists w'. split; [exact Hrun | exact Hcontent].
Defined.

(** C7. The log file of channel [c] is [logs/c]; every session opens it
    for appending, and whatever the sessions do afterwards, closing one
    and opening the next included, the file keeps all it held and is only
    extended. *)
Theorem log_path_fixed_and_only_appended (c : string) (k : option string)
    (d : nat) :
  let f := LogBotFactory.init c k d in
  let path := "logs/" +:+ c in
  filename f = path ∧
  (∀ st : LogBot.State,
     LogBot.factory (LogBot.self st) = f →
     can_open (LogBot.world st) path = true →
     let me := LogBot.self st in
     let w := LogBot.world st in
     let fd := length (files w) in
     let l := MessageLogger.init fd in
     let line :=
       log_line (clock w 1)
         ("[connected at " +:+ PyTime.asctime (clock w 0) +:+ "]") in
     ∃ w',
       LogBot.connectionMade st =
         (Ok tt, {| LogBot.self := LogBot.set_logger l me;
                    LogBot.world := w' |}) ∧
       new_effects w w' =
         [ IRCClient_connectionMade (LogBot.conn me); file_open fd path "a";
           file_write fd line; file_flush fd ] ∧
       content w' path = content w path +:+ line ∧
       ready w' l path) ∧
  (∀ (st : LogBot.State) (cbs : list callback),
     ∃ more,
       content (LogBot.world (deliver_all cbs st)) path =
       content (LogBot.world st) path +:+ more).
Proof.
  intros f path. split; [reflexivity |]. split.
  - intros [b w] Hf Hopen me w0 fd l line. simpl in *.
    assert (Hp : filename (LogBot.factory b) = path) by (by rewrite Hf).
    rewrite <- Hp in Hopen.
    destruct (connectionMade_opens b w Hopen) as (w' & Hrun & Hr & Hc & _ & Htr).
    rewrite Hp in *.
    exists w'. split; [exact Hrun |].
    split; [by apply new_effects_app | by split].
  - intros st cbs. apply deliver_all_grows.
Qed.

Lemma log_path_fixed_and_only_appended_witness :
  (∃ w',
     LogBot.connectionMade fresh0 =
       (Ok tt, {| LogBot.self :=
                    LogBot.set_logger (MessageLogger.init 0) (LogBot.self fresh0);
                  LogBot.world := w' |}) ∧
     new_effects (LogBot.world fresh0) w' =
       [ IRCClient_connectionMade 0; file_open 0 "logs/test" "a";
         file_write 0
           ("[12:00:07] [connected at Sun Mar  9 12:00:07 2014]" +:+ newline);
         file_flush 0 ]) ∧
  (∃ more,
     content
       (LogBot.world
          (deliver_all
             [ on_connectionLost "connection reset"; new_session;
               on_connectionMade ] live0))
       "logs/test" =
     content (LogBot.world live0) "logs/test" +:+ more).
Proof.
  destruct (log_path_fixed_and_only_appended "test" (Some "secret") 0)
    as (_ & Hopen & Hkeep).
  split.
  - destruct (Hopen fresh0 eq_refl eq_refl) as (w' & Hrun & Hnew & _).
    exists w'. split; [exact Hrun | exact Hnew].
  - apply Hkeep.
Defined.

(** The scenario of the specification: connect, join, one message,
    disconnect, and then the next session on the same file. *)
Example two_sessions_one_file :
  content
    (LogBot.world
       (deliver_all
          [ on_connectionMade; on_signedOn; on_joined "test";
            on_privmsg "alice!al@example.org" "test" "hello";
            on_connectionLost "connection reset";
            new_session; on_connectionMade ] fresh0))
    "logs/test" =
  "old" +:+ newline +:+
  "[12:00:07] [connected at Sun Mar  9 12:00:07 2014]" +:+ newline +:+
  "[12:00:07] [I have joined test]" +:+ newline +:+
  "[12:00:07] <alice> hello" +:+ newline +:+
  "[12:00:07] [disconnected at Sun Mar  9 12:00:07 2014]" +:+ newline +:+
  "[12:00:07] [connected at Sun Mar  9 12:00:07 2014]" +:+ newline.
Proof. vm_compute. reflexivity. Qed.

(** * Beyond the claims *)

(** ** Handlers on a session without a logger, or with a closed one *)

Lemma log_shut (l : MessageLogger.t) (message : string) (w : World) :
  shut w l →
  MessageLogger.log l message w = (Raise closed_file_error, ticked w).
Proof.
  intros (f & Hf & Hc).
  unfold MessageLogger.log, PyFile.write, PyFile.file_object, bind,
    localtime_now.
  simpl. rewrite Hf, Hc. reflexivity.
Qed.

Section DeadSession.

Variables (b : LogBot.t) (w : World).
Hypothesis Hno : LogBot.logger b = None.

Abbreviation st := {| LogBot.self := b; LogBot.world := w |}.
Abbreviation no_logger := (Raise (AttributeError "logger"), st).

Lemma joined_dead (c : string) : LogBot.joined c st = no_logger.
Proof. unfold LogBot.joined. run_session Hno. by rewrite ?Hno. Qed.

Lemma privmsg_dead (user c msg : string) : LogBot.privmsg user c msg st = no_logger.
Proof.
  unfold LogBot.privmsg. run_session Hno.
  rewrite (split_first_piece "!" (Some 1) user eq_refl). simpl.
  by rewrite Hno.
Qed.

Lemma action_dead (user c msg : string) : LogBot.action user c msg st = no_logger.
Proof.
  unfold LogBot.action. run_session Hno.
  rewrite (split_first_piece "!" (Some 1) user eq_refl). simpl.
  by rewrite Hno.
Qed.

Lemma irc_NICK_dead (prefix n : string) (more : list string) :
  LogBot.irc_NICK prefix (n :: more) st = no_logger.
Proof.
  unfold LogBot.irc_NICK. run_session Hno.
  rewrite (split_first_piece "!" None prefix eq_refl). simpl.
  by rewrite Hno.
Qed.

End DeadSession.

Section ShutSession.

Variables (b : LogBot.t) (w : World) (l : MessageLogger.t).
Hypothesis Hl : LogBot.logger b = Some l.
Hypothesis Hs : shut w l.

Abbreviation st := {| LogBot.self := b; LogBot.world := w |}.
Abbreviation refused :=
  (Raise closed_file_error, {| LogBot.self := b; LogBot.world := ticked w |}).

Lemma joined_shut (c : string) : LogBot.joined c st = refused.
Proof.
  unfold LogBot.joined. run_session Hl. by rewrite (log_shut l _ w Hs).
Qed.

Lemma privmsg_shut (user c msg : string) : LogBot.privmsg user c msg st = refused.
Proof.
  unfold LogBot.privmsg. run_session Hl.
  rewrite (split_first_piece "!" (Some 1) user eq_refl). simpl.
  rewrite Hl. simpl. by rewrite (log_shut l _ w Hs).
Qed.

Lemma action_shut (user c msg : string) : LogBot.action user c msg st = refused.
Proof.
  unfold LogBot.action. run_session Hl.
  rewrite (split_first_piece "!" (Some 1) user eq_refl). simpl.
  rewrite Hl. simpl. by rewrite (log_shut l _ w Hs).
Qed.

Lemma irc_NICK_shut (prefix n : string) (more : list string) :
  LogBot.irc_NICK prefix (n :: more) st = refused.
Proof.
  unfold LogBot.irc_NICK. run_session Hl.
  rewrite (split_first_piece "!" None prefix eq_refl). simpl.
  rewrite Hl. simpl. by rewrite (log_shut l _ w Hs).
Qed.

Lemma connectionLost_shut (reason : string) :
  LogBot.connectionLost reason st =
  (Raise closed_file_error,
   {| LogBot.self := b;
      LogBot.world :=
        ticked (ticked
          (set_trace (trace w ++ [ IRCClient_connectionLost (LogBot.conn b) reason ])
                     w)) |}).
Proof.
  unfold LogBot.connectionLost. run_session Hl.
  unfold emit, modify, localtime_now. simpl.
  erewrite log_shut; [reflexivity | exact Hs].
Qed.

End ShutSession.

Lemma irc_NICK_no_params (prefix : string) (st : LogBot.State) :
  LogBot.irc_NICK prefix [] st = (Raise IndexError, st).
Proof.
  unfold LogBot.irc_NICK, LogBot.item0, bind, ret, raise. simpl.
  by rewrite (split_first_piece "!" None prefix eq_refl).
Qed.

(** ** Actions and nickname changes *)

(** X1. An action from any user, on any channel, the bot's own nickname
    included, is logged as [* sender text] with the sender cut before
    its first ['!']; nothing is sent and the command handler is not
    called. *)
Theorem action_logged_never_answered (st : LogBot.State)
    (l : MessageLogger.t) (path user channel msg : string) :
  LogBot.logger (LogBot.self st) = Some l →
  ready (LogBot.world st) l path →
  logs_line (LogBot.action user channel msg) st l path
    ("* " +:+ PyStr.before_first "!" user +:+ " " +:+ msg) [].
Proof.
  intros Hl Hr. destruct st as [b w]. simpl in *.
  apply logged_logs_line; [done |].
  rewrite (action_live b w l path Hl Hr user channel msg).
  by rewrite set_trace_nil.
Qed.

Lemma action_logged_never_answered_witness :
  logs_line (LogBot.action "carol!c@example.org" "tonkon" "waves") live0
    (MessageLogger.init 0) "logs/test" "* carol waves" [].
Proof.
  apply (action_logged_never_answered live0 (MessageLogger.init 0)
           "logs/test" "carol!c@example.org" "tonkon" "waves"); reflexivity.
Defined.

(** X2. A nickname change is logged as [old is now known as new]: [old]
    is the prefix cut before its first ['!'], [new] is the first
    parameter as it came, and further parameters are ignored. *)
Theorem irc_NICK_logs_rename (st : LogBot.State) (l : MessageLogger.t)
    (path prefix new_nick : string) (more : list string) :
  LogBot.logger (LogBot.self st) = Some l →
  ready (LogBot.world st) l path →
  logs_line (LogBot.irc_NICK prefix (new_nick :: more)) st l path
    (PyStr.before_first "!" prefix +:+ " is now known as " +:+ new_nick) [].
Proof.
  intros Hl Hr. destruct st as [b w]. simpl in *.
  apply logged_logs_line; [done |].
  rewrite (irc_NICK_live b w l path Hl Hr prefix new_nick more).
  by rewrite set_trace_nil.
Qed.

Lemma irc_NICK_logs_rename_witness :
  logs_line
    (LogBot.irc_NICK "dave!d@example.org" [ "dave!away"; "ignored" ]) live0
    (MessageLogger.init 0) "logs/test" "dave is now known as dave!away" [].
Proof.
  apply (irc_NICK_logs_rename live0 (MessageLogger.init 0) "logs/test"
           "dave!d@example.org" "dave!away" [ "ignored" ]); reflexivity.
Defined.

(** X3. A NICK message without parameters raises [IndexError] before the
    logger is looked at: the session and the world stay exactly as they
    were, with or without a logger. *)
Theorem irc_NICK_without_params_raises (prefix : string) (st : LogBot.State) :
  LogBot.irc_NICK prefix [] st = (Raise IndexError, st) ∧
  deliver_all [ on_irc_NICK prefix [] ] st = st.
Proof.
  split; [apply irc_NICK_no_params |].
  simpl. by rewrite irc_NICK_no_params.
Qed.

(** ** Sessions that cannot log *)

(** X4. Before [connectionMade] has set the logger, the join
    confirmation, message, action and nickname-change handlers raise
    [AttributeError] and change nothing: a private message gets no
    refusal, a public one is not passed on to the command handler. *)
Theorem handlers_without_logger_raise (st : LogBot.State)
    (user channel msg new_nick : string) (more : list string) :
  LogBot.logger (LogBot.self st) = None →
  let stop := (Raise (AttributeError "logger"), st) in
  LogBot.joined channel st = stop ∧
  LogBot.privmsg user channel msg st = stop ∧
  LogBot.action user channel msg st = stop ∧
  LogBot.irc_NICK user (new_nick :: more) st = stop.
Proof.
  intros Hno stop. subst stop. destruct st as [b w]. simpl in *.
  split; [by apply joined_dead |].
  split; [by apply privmsg_dead |].
  split; [by apply action_dead | by apply irc_NICK_dead].
Qed.

Lemma handlers_without_logger_raise_witness :
  LogBot.privmsg "bob!b@example.org" "tonkon" "psst" fresh0 =
  (Raise (AttributeError "logger"), fresh0).
Proof.
  apply (handlers_without_logger_raise fresh0 "bob!b@example.org" "tonkon"
           "psst" "bobby" [] eq_refl).
Defined.

(** X5. Once the logger's file is closed, the four logging handlers read
    the clock and then raise [ValueError]: the disk and the trace stay as
    they were, so nothing is logged, answered or passed on. *)
Theorem handlers_after_close_raise (st : LogBot.State) (l : MessageLogger.t)
    (user channel msg new_nick : string) (more : list string) :
  LogBot.logger (LogBot.self st) = Some l →
  shut (LogBot.world st) l →
  let w := LogBot.world st in
  let stop :=
    (Raise (ValueError "I/O operation on closed file"),
     {| LogBot.self := LogBot.self st; LogBot.world := ticked w |}) in
  LogBot.joined channel st = stop ∧
  LogBot.privmsg user channel msg st = stop ∧
  LogBot.action user channel msg st = stop ∧
  LogBot.irc_NICK user (new_nick :: more) st = stop ∧
  disk (ticked w) = disk w ∧ trace (ticked w) = trace w ∧
  files (ticked w) = files w.
Proof.
  intros Hl Hs w stop. subst w stop. destruct st as [b w]. simpl in *.
  split; [exact (joined_shut b w l Hl Hs channel) |].
  split; [exact (privmsg_shut b w l Hl Hs user channel msg) |].
  split; [exact (action_shut b w l Hl Hs user channel msg) |].
  split; [exact (irc_NICK_shut b w l Hl Hs user new_nick more) | done].
Qed.

Lemma handlers_after_close_raise_witness :
  LogBot.privmsg "bob!b@example.org" "test" "anyone?" over0 =
  (Raise (ValueError "I/O operation on closed file"),
   {| LogBot.self := LogBot.self over0;
      LogBot.world := ticked (LogBot.world over0) |}).
Proof.
  assert (Hl : LogBot.logger (LogBot.self over0) = Some (MessageLogger.init 0))
    by (vm_compute; reflexivity).
  assert (Hs : shut (LogBot.world over0) (MessageLogger.init 0))
    by (eexists; split; vm_compute; reflexivity).
  exact (proj1 (proj2 (handlers_after_close_raise over0 (MessageLogger.init 0)
                         "bob!b@example.org" "test" "anyone?" "bobby" []
                         Hl Hs))).
Defined.

(** X6. When the log file cannot be opened, [connectionMade] raises
    [IOError] right after the base class call: the session keeps the
    logger it had (none, for a new protocol), no file object is made and
    the disk is untouched. *)
Theorem connectionMade_unopenable_raises (st : LogBot.State) :
  let me := LogBot.self st in
  let w := LogBot.world st in
  let path := filename (LogBot.factory me) in
  can_open w path = false →
  ∃ w',
    LogBot.connectionMade st =
      (Raise (IOError path), {| LogBot.self := me; LogBot.world := w' |}) ∧
    new_effects w w' = [ IRCClient_connectionMade (LogBot.conn me) ] ∧
    disk w' = disk w ∧ files w' = files w.
Proof.
  intros me w path Hno. subst me w path. destruct st as [b w]. simpl in *.
  eexists. split; [by apply connectionMade_refused |].
  split; [by apply new_effects_app | done].
Qed.

Lemma connectionMade_unopenable_raises_witness :
  fst (LogBot.connectionMade
         {| LogBot.self := LogBot.self fresh0;
            LogBot.world := world_without_logs |}) =
  Raise (IOError "logs/test").
Proof.
  destruct (connectionMade_unopenable_raises
              {| LogBot.self := LogBot.self fresh0;
                 LogBot.world := world_without_logs |} eq_refl)
    as (w' & Hrun & _).
  by rewrite Hrun.
Defined.

(** ** Closing, and what follows *)

Lemma connectionLost_live_world (b : LogBot.t) (w : World)
    (l : MessageLogger.t) (path reason : string) :
  LogBot.logger b = Some l →
  ready w l path →
  let fd := MessageLogger.file l in
  let line :=
    log_line (clock w 1)
      ("[disconnected at " +:+ PyTime.asctime (clock w 0) +:+ "]") in
  ∃ w',
    LogBot.connectionLost reason {| LogBot.self := b; LogBot.world := w |} =
      (Ok tt, {| LogBot.self := b; LogBot.world := w' |}) ∧
    disk w' = <[path := content w path +:+ line]> (disk w) ∧
    files w' =
      <[fd := {| f_path := path; f_buffer := ""; f_closed := true |}]> (files w) ∧
    trace w' =
      trace w ++
      [ IRCClient_connectionLost (LogBot.conn b) reason;
        file_write fd line; file_flush fd; file_close fd ] ∧
    clock w' = (fun n => clock w (S (S n))) ∧
    can_open w' = can_open w ∧
    protocols_built w' = protocols_built w.
Proof.
  intros Hl Hr fd line.
  pose proof (lookup_lt_Some _ _ _ Hr) as Hlt.
  unfold LogBot.connectionLost.
  run_session Hl.
  unfold emit, modify, localtime_now. simpl.
  erewrite (log_ready l path) by exact Hr. simpl.
  unfold MessageLogger.close, PyFile.close, PyFile.file_object, bind, modify,
    emit, ret.
  simpl. rewrite Hl. simpl. rewrite Hr. simpl.
  unfold modify, PyFile.drain. simpl.
  eexists. split; [reflexivity |]. simpl.
  split.
  { unfold content. simpl. rewrite lookup_insert_eq. simpl.
    by rewrite string_app_nil_r, insert_insert_eq. }
  split; [by rewrite !list_insert_insert_eq |].
  split; [by rewrite <- !app_assoc | done].
Qed.

Lemma connectionMade_opens_world (b : LogBot.t) (w : World) :
  let path := filename (LogBot.factory b) in
  let fd := length (files w) in
  let l := MessageLogger.init fd in
  let line :=
    log_line (clock w 1)
      ("[connected at " +:+ PyTime.asctime (clock w 0) +:+ "]") in
  can_open w path = true →
  ∃ w',
    LogBot.connectionMade {| LogBot.self := b; LogBot.world := w |} =
      (Ok tt, {| LogBot.self := LogBot.set_logger l b; LogBot.world := w' |}) ∧
    disk w' = <[path := content w path +:+ line]> (disk w) ∧
    files w' =
      files w ++ [ {| f_path := path; f_buffer := ""; f_closed := false |} ] ∧
    trace w' =
      trace w ++
      [ IRCClient_connectionMade (LogBot.conn b); file_open fd path "a";
        file_write fd line; file_flush fd ].
Proof.
  intros path fd l line Hopen.
  unfold LogBot.connectionMade, LogBot.assign_logger, PyFile.open_append.
  run_session Hopen.
  unfold emit, modify, localtime_now. simpl.
  fold path. rewrite Hopen. simpl.
  assert (Hmid : ∀ fs : list File,
             (fs ++ [ {| f_path := path; f_buffer := ""; f_closed := false |} ])
               !! length fs =
             Some {| f_path := path; f_buffer := ""; f_closed := false |}).
  { intros fs. apply list_lookup_middle. reflexivity. }
  erewrite (log_ready l path) by exact (Hmid (files w)).
  eexists. split; [reflexivity |]. simpl.
  split.
  { unfold content. simpl. by rewrite lookup_insert_eq, insert_insert_eq. }
  split; [done | by rewrite <- !app_assoc].
Qed.

(** X7. Closing a ready logger closes its file, writes nothing and
    leaves the disk as it was; closing it again does nothing at all,
    while logging to it raises [ValueError] and writes nothing. *)
Theorem close_once_then_log_raises (l : MessageLogger.t)
    (path message : string) (w : World) :
  ready w l path →
  ∃ w',
    MessageLogger.close l w = (Ok tt, w') ∧
    new_effects w w' = [ file_close (MessageLogger.file l) ] ∧
    (∀ q, content w' q = content w q) ∧
    files w' !! MessageLogger.file l =
      Some {| f_path := path; f_buffer := ""; f_closed := true |} ∧
    MessageLogger.close l w' = (Ok tt, w') ∧
    MessageLogger.log l message w' =
      (Raise (ValueError "I/O operation on closed file"), ticked w').
Proof.
  intros Hr. pose proof (lookup_lt_Some _ _ _ Hr) as Hlt.
  unfold MessageLogger.close at 1, PyFile.close, PyFile.file_object, bind,
    modify, emit, ret.
  simpl. rewrite Hr. simpl. unfold modify, PyFile.drain. simpl.
  eexists. split; [reflexivity |].
  assert (Hclosed :
    <[MessageLogger.file l :=
        {| f_path := path; f_buffer := ""; f_closed := true |}]>
      (<[MessageLogger.file l :=
           {| f_path := path; f_buffer := ""; f_closed := false |}]> (files w))
      !! MessageLogger.file l =
    Some {| f_path := path; f_buffer := ""; f_closed := true |}).
  { rewrite list_lookup_insert_eq; [done | by rewrite length_insert]. }
  split; [by apply new_effects_app |].
  split.
  { intros q. unfold content. simpl.
    destruct (decide (path = q)) as [-> | Hne].
    - rewrite lookup_insert_eq. simpl. by rewrite string_app_nil_r.
    - by rewrite lookup_insert_ne. }
  split; [exact Hclosed |].
  split.
  - unfold MessageLogger.close, PyFile.close, PyFile.file_object, bind, ret.
    simpl. by rewrite Hclosed.
  - apply log_shut. eexists. split; [exact Hclosed | done].
Qed.

Lemma close_once_then_log_raises_witness :
  ∃ w',
    MessageLogger.close (MessageLogger.init 0) (LogBot.world live0) =
      (Ok tt, w') ∧
    MessageLogger.log (MessageLogger.init 0) "late" w' =
      (Raise (ValueError "I/O operation on closed file"), ticked w').
Proof.
  destruct (close_once_then_log_raises (MessageLogger.init 0) "logs/test"
              "late" (LogBot.world live0) eq_refl)
    as (w' & Hclose & _ & _ & _ & _ & Hlog).
  exists w'. split; [exact Hclose | exact Hlog].
Defined.

(** X8. After the teardown of a session, a message that still arrives is
    neither logged nor answered nor passed on, and a second loss of the
    connection does not close again: both raise [ValueError], with the
    disk as the teardown left it. *)
Theorem late_events_after_teardown_raise (st : LogBot.State)
    (l : MessageLogger.t) (path reason user channel msg : string) :
  LogBot.logger (LogBot.self st) = Some l →
  ready (LogBot.world st) l path →
  let st1 := snd (LogBot.connectionLost reason st) in
  let w1 := LogBot.world st1 in
  fst (LogBot.connectionLost reason st) = Ok tt ∧
  LogBot.privmsg user channel msg st1 =
    (Raise (ValueError "I/O operation on closed file"),
     {| LogBot.self := LogBot.self st; LogBot.world := ticked w1 |}) ∧
  (∃ w2,
     LogBot.connectionLost reason st1 =
       (Raise (ValueError "I/O operation on closed file"),
        {| LogBot.self := LogBot.self st; LogBot.world := w2 |}) ∧
     new_effects w1 w2 =
       [ IRCClient_connectionLost (LogBot.conn (LogBot.self st)) reason ] ∧
     disk w2 = disk w1 ∧ files w2 = files w1).
Proof.
  intros Hl Hr st1 w1. subst w1 st1. destruct st as [b w]. simpl in *.
  destruct (connectionLost_live_world b w l path reason Hl Hr)
    as (w' & Hrun & _ & Hfiles & _).
  pose proof (lookup_lt_Some _ _ _ Hr) as Hlt.
  assert (Hs : shut w' l).
  { exists {| f_path := path; f_buffer := ""; f_closed := true |}.
    split; [| reflexivity].
    rewrite Hfiles. by apply list_lookup_insert_eq. }
  rewrite Hrun. simpl.
  split; [done |].
  split; [exact (privmsg_shut b w' l Hl Hs user channel msg) |].
  eexists. split; [exact (connectionLost_shut b w' l Hl Hs reason) |].
  split; [by apply new_effects_app | done].
Qed.

Lemma late_events_after_teardown_raise_witness :
  LogBot.privmsg "bob!b@example.org" "test" "anyone?"
    (snd (LogBot.connectionLost "connection reset" live0)) =
  (Raise (ValueError "I/O operation on closed file"),
   {| LogBot.self := LogBot.self live0;
      LogBot.world :=
        ticked (LogBot.world
                  (snd (LogBot.connectionLost "connection reset" live0))) |}).
Proof.
  assert (Hl : LogBot.logger (LogBot.self live0) = Some (MessageLogger.init 0))
    by (vm_compute; reflexivity).
  assert (Hr : ready (LogBot.world live0) (MessageLogger.init 0) "logs/test")
    by (vm_compute; reflexivity).
  exact (proj1 (proj2 (late_events_after_teardown_raise live0
                         (MessageLogger.init 0) "logs/test" "connection reset"
                         "bob!b@example.org" "test" "anyone?" Hl Hr))).
Defined.

(** X9. A reconnect: when a live session loses its connection and the
    factory builds the next protocol, which connects, all three calls
    succeed; the new protocol has the class nickname, the same factory
    and a logger of its own on a new file object, ready on the same
    path; the file has gained the disconnection line and then the
    connection line, after all it held. *)
Theorem reconnect_logs_again (st : LogBot.State) (l : MessageLogger.t)
    (path reason : string) :
  LogBot.logger (LogBot.self st) = Some l →
  ready (LogBot.world st) l path →
  path = filename (LogBot.factory (LogBot.self st)) →
  can_open (LogBot.world st) path = true →
  let w := LogBot.world st in
  let cycle := [ on_connectionLost reason; new_session; on_connectionMade ] in
  let st' := deliver_all cycle st in
  let l' := MessageLogger.init (length (files w)) in
  outcomes cycle st = [ Ok tt; Ok tt; Ok tt ] ∧
  LogBot.self st' =
    {| LogBot.conn := protocols_built w;
       LogBot.nickname := "tonkon";
       LogBot.logger := Some l';
       LogBot.factory := LogBot.factory (LogBot.self st) |} ∧
  ready (LogBot.world st') l' path ∧
  MessageLogger.file l' ≠ MessageLogger.file l ∧
  content (LogBot.world st') path =
    content w path +:+
    log_line (clock w 1)
      ("[disconnected at " +:+ PyTime.asctime (clock w 0) +:+ "]") +:+
    log_line (clock w 3)
      ("[connected at " +:+ PyTime.asctime (clock w 2) +:+ "]").
Proof.
  intros Hl Hr Hpath Hopen w cycle st' l'.
  subst w cycle st' l'. destruct st as [b w]. simpl in Hl, Hr, Hpath, Hopen.
  pose proof (lookup_lt_Some _ _ _ Hr) as Hlt.
  destruct (connectionLost_live_world b w l path reason Hl Hr)
    as (w1 & Hrun1 & Hdisk1 & Hfiles1 & _ & Hclock1 & Hopen1 & Hbuilt1).
  cbn [deliver_all outcomes deliver LogBot.self LogBot.world].
  rewrite Hrun1. cbn [fst snd].
  set (b2 := {| LogBot.conn := protocols_built w1; LogBot.nickname := "tonkon";
                LogBot.logger := None; LogBot.factory := LogBot.factory b |}).
  set (w2 := set_protocols_built (S (protocols_built w1)) w1).
  assert (Hnew : bind LogBot.this (fun me =>
                   bind (LogBot.lift
                           (LogBotFactory.buildProtocol (LogBot.factory me)))
                     (fun p => modify (fun s =>
                        {| LogBot.self := p; LogBot.world := LogBot.world s |})))
                   {| LogBot.self := b; LogBot.world := w1 |} =
                 (Ok tt, {| LogBot.self := b2; LogBot.world := w2 |})).
  { unfold bind, LogBot.this, LogBot.lift, LogBotFactory.buildProtocol, modify.
    reflexivity. }
  rewrite Hnew. cbn [fst snd].
  assert (Hopen2 : can_open w2 (filename (LogBot.factory b2)) = true).
  { simpl. rewrite Hopen1, <- Hpath. exact Hopen. }
  destruct (connectionMade_opens_world b2 w2 Hopen2)
    as (w3 & Hrun3 & Hdisk3 & Hfiles3 & _).
  rewrite Hrun3. cbn [fst snd LogBot.self LogBot.world].
  assert (Hlen : length (files w2) = length (files w)).
  { simpl. by rewrite Hfiles1, length_insert. }
  rewrite Hlen in *. simpl in Hdisk3, Hfiles3. rewrite <- Hpath in *.
  split; [reflexivity |].
  split; [unfold LogBot.set_logger, b2; simpl; by rewrite Hbuilt1 |].
  split.
  { unfold ready. rewrite Hfiles3, Hfiles1. simpl.
    apply list_lookup_middle. by rewrite length_insert. }
  split; [simpl; lia |].
  unfold content at 1. rewrite Hdisk3, lookup_insert_eq. simpl.
  unfold content at 1. simpl. rewrite Hdisk1, lookup_insert_eq. simpl.
  rewrite Hclock1. by rewrite string_app_assoc.
Qed.

Lemma reconnect_logs_again_witness :
  outcomes [ on_connectionLost "connection reset"; new_session;
             on_connectionMade ] live0 = [ Ok tt; Ok tt; Ok tt ].
Proof.
  assert (Hl : LogBot.logger (LogBot.self live0) = Some (MessageLogger.init 0))
    by (vm_compute; reflexivity).
  assert (Hr : ready (LogBot.world live0) (MessageLogger.init 0) "logs/test")
    by (vm_compute; reflexivity).
  assert (Ho : can_open (LogBot.world live0) "logs/test" = true)
    by (vm_compute; reflexivity).
  exact (proj1 (reconnect_logs_again live0 (MessageLogger.init 0) "logs/test"
                  "connection reset" Hl Hr eq_refl Ho)).
Defined.

(** ** A whole session *)

Lemma deliver_in_session (b : LogBot.t) (w : World) (l : MessageLogger.t)
    (path : string) (cb : callback) :
  LogBot.logger b = Some l →
  ready w l path →
  in_session cb = true →
  deliver cb {| LogBot.self := b; LogBot.world := w |} =
  (Ok tt,
   {| LogBot.self := b;
      LogBot.world :=
        match logged_text cb with
        | Some text =>
            let w1 := logged (MessageLogger.file l) path
                        (log_line (clock w 0) text) w in
            set_trace (trace w1 ++ follow_up b cb) w1
        | None => set_trace (trace w ++ follow_up b cb) w
        end |}).
Proof.
  intros Hl Hr Hin. destruct cb as [| | | | c | u c m | u c m | p ps];
    try discriminate Hin;
    cbn [deliver logged_text follow_up]; cbv zeta.
  - apply signedOn_joins.
  - rewrite set_trace_nil. exact (joined_live b w l path Hl Hr c).
  - exact (privmsg_live b w l path Hl Hr u c m).
  - rewrite set_trace_nil. exact (action_live b w l path Hl Hr u c m).
  - destruct ps as [| n more]; [discriminate Hin |].
    rewrite set_trace_nil. exact (irc_NICK_live b w l path Hl Hr p n more).
Qed.

Lemma session_runs (b : LogBot.t) (l : MessageLogger.t) (path : string)
    (cbs : list callback) :
  LogBot.logger b = Some l →
  forallb in_session cbs = true →
  ∀ w, ready w l path →
  ∃ w',
    deliver_all cbs {| LogBot.self := b; LogBot.world := w |} =
      {| LogBot.self := b; LogBot.world := w' |} ∧
    outcomes cbs {| LogBot.self := b; LogBot.world := w |} =
      repeat (Ok tt) (length cbs) ∧
    ready w' l path ∧
    content w' path = content w path +:+ transcript cbs (clock w) ∧
    (∀ q, q ≠ path → content w' q = content w q) ∧
    trace w' =
      trace w ++ session_effects b (MessageLogger.file l) cbs (clock w).
Proof.
  intros Hl. induction cbs as [| cb cbs IH]; intros Hall w Hr.
  - exists w. simpl. rewrite string_app_nil_r, app_nil_r. done.
  - simpl in Hall. apply andb_true_iff in Hall as [Hcb Hall].
    cbn [deliver_all outcomes].
    rewrite (deliver_in_session b w l path cb Hl Hr Hcb). cbn [fst snd].
    cbn [transcript session_effects length repeat].
    destruct (logged_text cb) as [text |].
    + set (line := log_line (clock w 0) text).
      set (w1 := set_trace
                   (trace (logged (MessageLogger.file l) path line w) ++
                    follow_up b cb)
                   (logged (MessageLogger.file l) path line w)).
      destruct (IH Hall w1 Hr) as (w' & Hgo & Hout & Hr' & Hc & Ho & Ht).
      exists w'. split; [exact Hgo |]. split; [by rewrite Hout |].
      split; [exact Hr' |].
      split; [| split].
      * rewrite Hc. change (content w1 path) with
          (content (logged (MessageLogger.file l) path line w) path).
        rewrite logged_content. by rewrite string_app_assoc.
      * intros q Hq. rewrite (Ho q Hq).
        change (content w1 q) with
          (content (logged (MessageLogger.file l) path line w) q).
        by apply logged_content_other.
      * rewrite Ht. simpl. rewrite <- !app_assoc. reflexivity.
    + set (w1 := set_trace (trace w ++ follow_up b cb) w).
      destruct (IH Hall w1 Hr) as (w' & Hgo & Hout & Hr' & Hc & Ho & Ht).
      exists w'. split; [exact Hgo |]. split; [by rewrite Hout |].
      split; [exact Hr' |].
      split; [exact Hc |]. split; [exact Ho |].
      rewrite Ht. simpl. by rewrite <- app_assoc.
Qed.

(** X10. Between [connectionMade] and [connectionLost], whatever sign-on,
    join, message, action and nickname-change callbacks arrive, in
    whatever order, and counting what the handlers do themselves: the
    session object and the ready logger stay as they are, the log file
    gains exactly the lines of the logging callbacks, in the order of
    arrival and each stamped with the time of its own clock read, no
    other file changes, and the outward calls made are exactly those of
    the callbacks, in order.  Whether [join], [msg] or the command
    handler raise once called is not part of the statement; the
    callbacks that only log all succeed. *)
Theorem session_transcript (st : LogBot.State) (l : MessageLogger.t)
    (path : string) (cbs : list callback) :
  LogBot.logger (LogBot.self st) = Some l →
  ready (LogBot.world st) l path →
  forallb in_session cbs = true →
  let w := LogBot.world st in
  let st' := deliver_all cbs st in
  LogBot.self st' = LogBot.self st ∧
  ready (LogBot.world st') l path ∧
  content (LogBot.world st') path =
    content w path +:+ transcript cbs (clock w) ∧
  (∀ q, q ≠ path → content (LogBot.world st') q = content w q) ∧
  new_effects w (LogBot.world st') =
    session_effects (LogBot.self st) (MessageLogger.file l) cbs (clock w) ∧
  (forallb logs_only cbs = true →
   outcomes cbs st = repeat (Ok tt) (length cbs)).
Proof.
  intros Hl Hr Hall w st'. subst w st'. destruct st as [b w]. simpl in *.
  destruct (session_runs b l path cbs Hl Hall w Hr)
    as (w' & Hgo & Hout & Hr' & Hc & Ho & Ht).
  rewrite Hgo. simpl.
  split; [reflexivity |]. split; [exact Hr' |].
  split; [exact Hc |]. split; [exact Ho |].
  split; [by apply new_effects_app | intros _; exact Hout].
Qed.

Lemma session_transcript_witness :
  content (LogBot.world (deliver_all chat0 live0)) "logs/test" =
  content (LogBot.world live0) "logs/test" +:+
  transcript chat0 (clock (LogBot.world live0)).
Proof.
  assert (Hl : LogBot.logger (LogBot.self live0) = Some (MessageLogger.init 0))
    by (vm_compute; reflexivity).
  assert (Hr : ready (LogBot.world live0) (MessageLogger.init 0) "logs/test")
    by (vm_compute; reflexivity).
  exact (proj1 (proj2 (proj2
           (session_transcript live0 (MessageLogger.init 0) "logs/test" chat0
              Hl Hr eq_refl)))).
Defined.

Example session_transcript_text :
  transcript chat0 (fun _ => noon) =
  "[12:00:07] [I have joined test]" +:+ newline +:+
  "[12:00:07] <alice> hello" +:+ newline +:+
  "[12:00:07] * bob waves" +:+ newline +:+
  "[12:00:07] <bob> psst" +:+ newline +:+
  "[12:00:07] bob is now known as bobby" +:+ newline.
Proof. vm_compute. reflexivity. Qed.

(** ** The one log file *)

Lemma disk_logged_other (fd : nat) (path line q : string) (w : World)
    (t : list effect) :
  q ≠ path →
  disk (set_trace t (logged fd path line w)) !! q = disk w !! q.
Proof. intros Hq. simpl. by rewrite lookup_insert_ne. Qed.

Lemma tidy_same_files (b : LogBot.t) (w w' : World) :
  tidy {| LogBot.self := b; LogBot.world := w |} →
  files w' = files w →
  tidy {| LogBot.self := b; LogBot.world := w' |}.
Proof. unfold tidy. simpl. intros H E. by rewrite E. Qed.

Lemma deliver_tidy (cb : callback) (b : LogBot.t) (w : World) :
  tidy {| LogBot.self := b; LogBot.world := w |} →
  let st' := snd (deliver cb {| LogBot.self := b; LogBot.world := w |}) in
  tidy st' ∧
  LogBot.factory (LogBot.self st') = LogBot.factory b ∧
  ∀ q, q ≠ filename (LogBot.factory b) →
       disk (LogBot.world st') !! q = disk w !! q.
Proof.
  intros Ht.
  assert (Hcases :
    LogBot.logger b = None ∨
    (∃ l, LogBot.logger b = Some l ∧ ready w l (filename (LogBot.factory b))) ∨
    (∃ l, LogBot.logger b = Some l ∧ shut w l)).
  { unfold tidy in Ht. simpl in Ht.
    destruct (LogBot.logger b) as [l |]; [| by left].
    destruct Ht as [[|] Hf]; right.
    - right. exists l. split; [done |]. eexists. by split.
    - left. by exists l. }
  destruct cb as [| | reason | | c | u c m | u c m | p ps];
    cbn [deliver].
  - (* new_session *)
    unfold bind, LogBot.this, LogBot.lift, LogBotFactory.buildProtocol, modify.
    simpl. by repeat split.
  - (* connectionMade *)
    destruct (can_open w (filename (LogBot.factory b))) eqn:Hopen.
    + destruct (connectionMade_opens_world b w Hopen)
        as (w' & Hrun & Hdisk & Hfiles & _).
      rewrite Hrun. simpl. split; [| split; [done |]].
      * unfold tidy. simpl. exists false. rewrite Hfiles.
        by apply list_lookup_middle.
      * intros q Hq. by rewrite Hdisk, lookup_insert_ne.
    + rewrite (connectionMade_refused b w Hopen). simpl.
      split; [by apply (tidy_same_files b w) | done].
  - (* connectionLost *)
    destruct Hcases as [Hno | [(l & Hl & Hr) | (l & Hl & Hs)]].
    + rewrite (connectionLost_no_logger b w reason Hno). simpl.
      split; [by apply (tidy_same_files b w) | done].
    + destruct (connectionLost_live_world b w l _ reason Hl Hr)
        as (w' & Hrun & Hdisk & Hfiles & _).
      pose proof (lookup_lt_Some _ _ _ Hr) as Hlt.
      rewrite Hrun. simpl. split; [| split; [done |]].
      * unfold tidy. simpl. rewrite Hl. exists true. rewrite Hfiles.
        by apply list_lookup_insert_eq.
      * intros q Hq. by rewrite Hdisk, lookup_insert_ne.
    + rewrite (connectionLost_shut b w l Hl Hs reason). simpl.
      split; [by apply (tidy_same_files b w) | done].
  - (* signedOn *)
    rewrite signedOn_joins. simpl.
    split; [by apply (tidy_same_files b w) | done].
  - (* joined *)
    destruct Hcases as [Hno | [(l & Hl & Hr) | (l & Hl & Hs)]].
    + rewrite (joined_dead b w Hno c). simpl. done.
    + rewrite (joined_live b w l _ Hl Hr c). simpl.
      split; [by apply (tidy_same_files b w) |]. split; [done |].
      intros q Hq. by rewrite lookup_insert_ne.
    + rewrite (joined_shut b w l Hl Hs c). simpl.
      split; [by apply (tidy_same_files b w) | done].
  - (* privmsg *)
    destruct Hcases as [Hno | [(l & Hl & Hr) | (l & Hl & Hs)]].
    + rewrite (privmsg_dead b w Hno u c m). simpl. done.
    + rewrite (privmsg_live b w l _ Hl Hr u c m). simpl.
      split; [by apply (tidy_same_files b w) |]. split; [done |].
      intros q Hq. by rewrite lookup_insert_ne.
    + rewrite (privmsg_shut b w l Hl Hs u c m). simpl.
      split; [by apply (tidy_same_files b w) | done].
  - (* action *)
    destruct Hcases as [Hno | [(l & Hl & Hr) | (l & Hl & Hs)]].
    + rewrite (action_dead b w Hno u c m). simpl. done.
    + rewrite (action_live b w l _ Hl Hr u c m). simpl.
      split; [by apply (tidy_same_files b w) |]. split; [done |].
      intros q Hq. by rewrite lookup_insert_ne.
    + rewrite (action_shut b w l Hl Hs u c m). simpl.
      split; [by apply (tidy_same_files b w) | done].
  - (* irc_NICK *)
    destruct ps as [| n more].
    { rewrite irc_NICK_no_params. simpl. done. }
    destruct Hcases as [Hno | [(l & Hl & Hr) | (l & Hl & Hs)]].
    + rewrite (irc_NICK_dead b w Hno p n more). simpl. done.
    + rewrite (irc_NICK_live b w l _ Hl Hr p n more). simpl.
      split; [by apply (tidy_same_files b w) |]. split; [done |].
      intros q Hq. by rewrite lookup_insert_ne.
    + rewrite (irc_NICK_shut b w l Hl Hs p n more). simpl.
      split; [by apply (tidy_same_files b w) | done].
Qed.

(** X11. Starting from a protocol as the factory builds it, or from any
    session whose logger, if any, is on the factory's log file: whatever
    callbacks arrive, failing ones and new sessions included, the
    sessions keep the one factory, their loggers stay on its log file,
    and no other file on disk is created or changed. *)
Theorem only_the_log_file_is_touched (cbs : list callback)
    (st : LogBot.State) :
  tidy st →
  let st' := deliver_all cbs st in
  let f := LogBot.factory (LogBot.self st) in
  tidy st' ∧
  LogBot.factory (LogBot.self st') = f ∧
  ∀ q, q ≠ filename f →
       disk (LogBot.world st') !! q = disk (LogBot.world st) !! q.
Proof.
  revert st. induction cbs as [| cb cbs IH]; intros [b w] Ht; simpl.
  - done.
  - destruct (deliver_tidy cb b w Ht) as (Ht1 & Hf1 & Hd1).
    destruct (IH _ Ht1) as (Ht2 & Hf2 & Hd2). simpl in Hf2, Hd2.
    split; [exact Ht2 |]. rewrite Hf2, Hf1. split; [done |].
    intros q Hq. rewrite Hd2 by (by rewrite Hf1). by apply Hd1.
Qed.

Lemma only_the_log_file_is_touched_witness :
  disk (LogBot.world
          (deliver_all
             (on_connectionMade :: chat0 ++
              [ on_connectionLost "connection reset";
                on_privmsg "late!l@example.org" "test" "hello?";
                new_session; on_connectionMade ])
             fresh0)) !! "config.yaml" =
  disk (LogBot.world fresh0) !! "config.yaml".
Proof.
  apply (only_the_log_file_is_touched
           (on_connectionMade :: chat0 ++
            [ on_connectionLost "connection reset";
              on_privmsg "late!l@example.org" "test" "hello?";
              new_session; on_connectionMade ]) fresh0 I).
  discriminate.
Defined.

(** ** The supervisor over any run of transport events *)

Lemma supervise_all_app (f : Factory) (evs more : list transport_event)
    (w : World) :
  supervise_all f (evs ++ more) w =
  bind (supervise_all f evs) (fun _ => supervise_all f more) w.
Proof.
  revert w. induction evs as [| ev evs IH]; intros w; [reflexivity |].
  simpl. unfold bind.
  destruct (supervise f ev w) as [[[] | e] w1]; [| reflexivity].
  rewrite IH. reflexivity.
Qed.

Lemma supervise_without_failure (f : Factory) (evs : list transport_event) :
  forallb (fun ev => negb (is_failure ev)) evs = true →
  ∀ w,
  ∃ w',
    supervise_all f evs w = (Ok tt, w') ∧
    trace w' = trace w ++ repeat (dial w) (length (List.filter is_loss evs)) ∧
    reactor_running w' = reactor_running w ∧
    c_host (connector w') = c_host (connector w) ∧
    c_port (connector w') = c_port (connector w) ∧
    disk w' = disk w.
Proof.
  induction evs as [| ev evs IH]; intros Hall w.
  - exists w. simpl. by rewrite app_nil_r.
  - simpl in Hall. apply andb_true_iff in Hall as [Hev Hall].
    destruct ev as [| reason | reason]; [| | discriminate Hev].
    + destruct (IH Hall (set_connector
                  {| c_host := c_host (connector w);
                     c_port := c_port (connector w);
                     c_state := connected |} w))
        as (w' & Hgo & Htr & Hre & Hh & Hp & Hd).
      exists w'. split; [exact Hgo |]. by rewrite Htr, Hre, Hh, Hp, Hd.
    + assert (E : supervise_all f (lost reason :: evs) w =
                  supervise_all f evs
                    (redialled (set_connector
                       {| c_host := c_host (connector w);
                          c_port := c_port (connector w);
                          c_state := disconnected |} w))) by reflexivity.
      destruct (IH Hall (redialled (set_connector
                  {| c_host := c_host (connector w);
                     c_port := c_port (connector w);
                     c_state := disconnected |} w)))
        as (w' & Hgo & Htr & Hre & Hh & Hp & Hd).
      exists w'. rewrite E, Htr, Hre, Hh, Hp, Hd.
      split; [exact Hgo |]. simpl. by rewrite <- app_assoc.
Qed.

(** X12. Whatever the order in which connections come up and are lost,
    as long as no connect attempt fails: the supervisor raises nothing,
    dials once for each loss and never otherwise, always the connector's
    own host and port, and leaves the reactor and the disk as they
    are. *)
Theorem one_dial_per_loss (f : Factory) (evs : list transport_event)
    (w : World) :
  forallb (fun ev => negb (is_failure ev)) evs = true →
  ∃ w',
    supervise_all f evs w = (Ok tt, w') ∧
    new_effects w w' =
      repeat (connector_connect (c_host (connector w)) (c_port (connector w)))
             (length (List.filter is_loss evs)) ∧
    reactor_running w' = reactor_running w ∧
    c_host (connector w') = c_host (connector w) ∧
    c_port (connector w') = c_port (connector w) ∧
    disk w' = disk w.
Proof.
  intros Hall.
  destruct (supervise_without_failure f evs Hall w)
    as (w' & Hgo & Htr & Hrest).
  exists w'. split; [exact Hgo |]. split; [by apply new_effects_app | exact Hrest].
Qed.

Lemma one_dial_per_loss_witness :
  ∃ w',
    supervise_all factory0
      [ established; lost "reset"; lost "timeout"; established;
        established; lost "eof" ] world0 = (Ok tt, w') ∧
    new_effects world0 w' =
      repeat (connector_connect "irc.example.net" 6697%N) 3.
Proof.
  destruct (one_dial_per_loss factory0
              [ established; lost "reset"; lost "timeout"; established;
                established; lost "eof" ] world0 eq_refl)
    as (w' & Hgo & Hnew & _).
  exists w'. split; [exact Hgo | exact Hnew].
Defined.

Lemma supervise_failed_run (f : Factory) (reason : string) (w : World) :
  let w1 :=
    set_trace
      (trace w ++ [ print ("connection failed: " +:+ reason +:+ newline) ])
      (set_connector {| c_host := c_host (connector w);
                        c_port := c_port (connector w);
                        c_state := disconnected |} w) in
  supervise_all f [ failed reason ] w =
  if reactor_running w
  then (Ok tt, set_trace (trace w1 ++ [ reactor_stop ])
                 (set_reactor_running false w1))
  else (Raise ReactorNotRunning, w1).
Proof.
  unfold supervise_all, supervise, LogBotFactory.clientConnectionFailed,
    Twisted.become, Twisted.stop, bind, get, emit, modify, ret, raise.
  simpl. by destruct (reactor_running w).
Qed.

(** X13. The first failed connect attempt ends the run: after any
    failure-free history, it prints the reason and stops the reactor,
    with no further dial and without touching the disk, so that a
    failed first attempt creates no log file; had the reactor been
    stopped before, the reason is still printed and [reactor.stop()]
    raises. *)
Theorem first_failure_stops_the_reactor (f : Factory)
    (evs : list transport_event) (reason : string) (w : World) :
  forallb (fun ev => negb (is_failure ev)) evs = true →
  let again := connector_connect (c_host (connector w)) (c_port (connector w)) in
  let report := print ("connection failed: " +:+ reason +:+ newline) in
  ∃ w',
    snd (supervise_all f (evs ++ [ failed reason ]) w) = w' ∧
    reactor_running w' = false ∧
    c_state (connector w') = disconnected ∧
    disk w' = disk w ∧
    if reactor_running w
    then fst (supervise_all f (evs ++ [ failed reason ]) w) = Ok tt ∧
         new_effects w w' =
           repeat again (length (List.filter is_loss evs)) ++
           [ report; reactor_stop ]
    else fst (supervise_all f (evs ++ [ failed reason ]) w) =
           Raise ReactorNotRunning ∧
         new_effects w w' =
           repeat again (length (List.filter is_loss evs)) ++ [ report ].
Proof.
  intros Hall again report.
  destruct (supervise_without_failure f evs Hall w)
    as (w1 & Hgo & Htr & Hre & Hh & Hp & Hd).
  rewrite supervise_all_app. unfold bind. rewrite Hgo.
  rewrite supervise_failed_run, Hre.
  eexists. split; [reflexivity |].
  destruct (reactor_running w) eqn:Hrun; simpl.
  - split; [reflexivity |]. split; [reflexivity |]. split; [exact Hd |].
    split; [reflexivity |].
    apply new_effects_app. simpl. rewrite Htr. by rewrite <- !app_assoc.
  - split; [exact Hre |]. split; [reflexivity |]. split; [exact Hd |].
    split; [reflexivity |].
    apply new_effects_app. simpl. rewrite Htr. by rewrite <- !app_assoc.
Qed.

Lemma first_failure_stops_the_reactor_witness :
  ∃ w',
    snd (supervise_all factory0
           ([ established; lost "reset" ] ++ [ failed "refused" ]) world0) = w' ∧
    reactor_running w' = false.
Proof.
  destruct (first_failure_stops_the_reactor factory0
              [ established; lost "reset" ] "refused" world0 eq_refl)
    as (w' & Hgo & Hstop & _).
  exists w'. split; [exact Hgo | exact Hstop].
Defined.

(** ** The database check *)

Section DatabaseCheck.

Context {D : Type} (sql : Sqlite.Connection D).

(** X14. When the first [SELECT] does not raise [OperationalError],
    [init_db_or_pass] is over with it: it returns if the [SELECT]
    succeeded and lets the other exception escape if not; that [SELECT]
    is the only statement given to the database, and there is no
    [CREATE TABLE], no commit and no print. *)
Theorem init_db_or_pass_stops_after_select (conn d d1 : D)
    (r : Sqlite.answer (list (list string))) :
  Sqlite.cursor sql conn = (Sqlite.fine tt, d) →
  Sqlite.execute sql select_braindumps d = (r, d1) →
  (∀ message, r ≠ Sqlite.fails (Sqlite.OperationalError message)) →
  init_db_or_pass sql conn =
  (match r with
   | Sqlite.fine _ => Sqlite.returned
   | Sqlite.fails e => Sqlite.raised e
   end,
   d1, [ Sqlite.opened_cursor; Sqlite.executed select_braindumps ]).
Proof.
  intros Hc Hs Hr. unfold init_db_or_pass. rewrite Hc, Hs.
  destruct r as [found | [message | kind message]]; [reflexivity | | reflexivity].
  by destruct (Hr message).
Qed.


End DatabaseCheck.

Lemma init_db_or_pass_stops_after_select_witness :
  init_db_or_pass plain_db true =
    (Sqlite.returned, true,
     [ Sqlite.opened_cursor; Sqlite.executed select_braindumps ]) ∧
  init_db_or_pass closed_db false =
    (Sqlite.raised
       (Sqlite.OtherError "ProgrammingError"
          "Cannot operate on a closed database."),
     false, [ Sqlite.opened_cursor ]).
Proof.
  split; [| reflexivity].
  apply (init_db_or_pass_stops_after_select plain_db true true true
           (Sqlite.fine no_rows)); [reflexivity | reflexivity | discriminate].
Defined.


Example init_db_or_pass_on_a_new_database :
  init_db_or_pass plain_db false =
  (Sqlite.returned, true,
   [ Sqlite.opened_cursor; Sqlite.executed select_braindumps;
     Sqlite.executed create_braindumps; Sqlite.committed;
     Sqlite.executed select_braindumps; Sqlite.printed no_rows ]).
Proof. reflexivity. Qed.

(** ** Display names *)

(** X16. The message and action handlers cut the sender with
    [split('!', 1)], the nickname-change handler with [split('!')]: for
    every identifier both give the same display name, the text before
    the first ['!']; it contains no ['!'], is no longer than the
    identifier, and cutting it again changes nothing. *)
Theorem display_name_same_in_all_handlers (user : string) :
  let name := PyStr.before_first "!" user in
  PyStr.split "!" (Some 1) user !! 0 = Some name ∧
  PyStr.split "!" None user !! 0 = Some name ∧
  PyStr.contains "!" name = false ∧
  (String.length name <= String.length user)%nat ∧
  PyStr.split "!" (Some 1) name = [ name ] ∧
  PyStr.split "!" None name = [ name ].
Proof.
  intros name.
  pose proof (before_first_no_sep "!" user) as Hno. fold name in Hno.
  split; [by apply split_first_piece |].
  split; [by apply split_first_piece |].
  split; [exact Hno |].
  split.
  - pose proof (f_equal String.length (before_from_first "!" user)) as E.
    rewrite string_length_app in E. fold name in E. lia.
  - split; by apply split_no_sep.
Qed.
